(** * Signaling server: registry, connection manager and protocol handler

    A shallow embedding of [src/main.py] (the FastAPI WebSocket signaling
    server): the two module-level dictionaries [rooms] and [users], the
    methods of [ConnectionManager] and the body of [websocket_endpoint].

    Modelling choices, all read off the source:
    - [rooms : Dict[str, Dict[str, WebSocket]]] is a finite map from room
      key to a Python dictionary of connections.  The inner dictionary is
      iterated by [broadcast_to_room] and [get_room_participants], so it
      is an insertion-ordered association list; the outer map and [users]
      are only looked up, so they are [gmap]s.
    - a decoded JSON value is the inductive [json]; a Python dictionary
      with string keys is an association list in insertion order.  A
      JSON number is carried as an integer: the signaling code never
      computes with one, and the Telegram client only compares a count
      with zero.
    - a WebSocket object is a handle (a number); whether a send on it
      succeeds is decided by the network, a parameter of the development.
    - a coroutine is a function on the [World] (registry, network, log of
      send attempts) that may end with an exception.  The manager and the
      handler are given twice: run without another task being scheduled
      during their awaits, and (the names ending in [_live]) with the
      other handlers writing the registry while a send is awaited, where
      the iteration of [broadcast_to_room] over the live dictionary can
      raise. *)

From stdpp Require Import gmap strings list fin_maps.
From Stdlib Require Import ZArith.

Open Scope string_scope.
Set Warnings "-register-all".

(** ** JSON values and Python dictionaries *)

Inductive json : Type :=
| JNull
| JBool (b : bool)
| JNum (n : Z)
| JStr (s : string)
| JList (items : list json)
| JObj (fields : list (string * json)).

(** A dictionary with string keys, in insertion order. *)
Abbreviation dict V := (list (string * V)).

Section Dict.
Context {V : Type}.

(** [d.get(k)] *)
Fixpoint dict_get (k : string) (d : dict V) : option V :=
  match d with
  | [] => None
  | (k', v) :: d' => if decide (k = k') then Some v else dict_get k d'
  end.

(** [k in d] *)
Definition dict_mem (k : string) (d : dict V) : bool :=
  match dict_get k d with Some _ => true | None => false end.

(** [d[k] = v]: an existing key keeps its position, a new key goes last. *)
Fixpoint dict_set (k : string) (v : V) (d : dict V) : dict V :=
  match d with
  | [] => [(k, v)]
  | (k', v') :: d' =>
      if decide (k = k') then (k, v) :: d' else (k', v') :: dict_set k v d'
  end.

(** [del d[k]] *)
Definition dict_del (k : string) (d : dict V) : dict V :=
  filter (λ kv, kv.1 ≠ k) d.

(** [d.keys()] *)
Definition dict_keys (d : dict V) : list string := d.*1.

(** [{**base, **extra}] *)
Definition dict_merge (base extra : dict V) : dict V :=
  foldl (λ acc kv, dict_set kv.1 kv.2 acc) base extra.

(** [not d] *)
Definition dict_is_empty (d : dict V) : bool :=
  match d with [] => true | _ => false end.
End Dict.

(** ** The registry: the globals [rooms] and [users] *)

Definition WebSocket : Type := nat.

Record Registry : Type := mkRegistry {
  rooms : gmap string (dict WebSocket);
  users : gmap string (dict json)
}.

Definition empty_registry : Registry := mkRegistry ∅ ∅.

(** [rooms[room_id]] read as a dictionary, empty when the room is absent. *)
Definition room_members (reg : Registry) (room_id : string) : dict WebSocket :=
  default [] (rooms reg !! room_id).

(** [room_id in rooms and user_id in rooms[room_id]], with the channel. *)
Definition room_lookup (reg : Registry) (room_id user_id : string)
  : option WebSocket :=
  rooms reg !! room_id ≫= dict_get user_id.

Definition is_member (reg : Registry) (room_id user_id : string) : bool :=
  match room_lookup reg room_id user_id with Some _ => true | None => false end.

(** [ConnectionManager.disconnect] *)
Definition disconnect (reg : Registry) (room_id user_id : string) : Registry :=
  let rooms1 :=
    match rooms reg !! room_id with
    | Some members =>
        if dict_mem user_id members then
          let members' := dict_del user_id members in
          if dict_is_empty members' then delete room_id (rooms reg)
          else <[room_id := members']> (rooms reg)
        else rooms reg
    | None => rooms reg
    end in
  let users1 :=
    match users reg !! user_id with
    | Some _ => delete user_id (users reg)
    | None => users reg
    end in
  mkRegistry rooms1 users1.

(** The dictionary built for one participant:
    [{"user_id": user_id, **users[user_id]}]. *)
Definition participant_entry (user_id : string) (record : dict json) : dict json :=
  dict_merge [("user_id", JStr user_id)] record.

(** [ConnectionManager.get_room_participants] *)
Definition get_room_participants (reg : Registry) (room_id : string)
  : list (dict json) :=
  match rooms reg !! room_id with
  | None => []
  | Some members =>
      omap (λ user_id, participant_entry user_id <$> users reg !! user_id)
           (dict_keys members)
  end.

(** The first two statements of the join branch of [websocket_endpoint]:
    [if room_id not in rooms: rooms[room_id] = {}] and
    [rooms[room_id][user_id] = websocket]. *)
Definition bind_channel (reg : Registry) (room_id user_id : string)
    (ws : WebSocket) : Registry :=
  mkRegistry (<[room_id := dict_set user_id ws (room_members reg room_id)]> (rooms reg))
             (users reg).

(** [users[user_id] = {**user_info, "room_id": room_id}]; unpacking a value
    that is not a mapping raises [TypeError], hence the option. *)
Definition store_user (reg : Registry) (room_id user_id : string)
    (user_info : json) : option Registry :=
  match user_info with
  | JObj info =>
      Some (mkRegistry (rooms reg)
              (<[user_id := dict_set "room_id" (JStr room_id) info]> (users reg)))
  | _ => None
  end.

(** ** The world a coroutine runs in *)

(** One call of [send_json] on a channel and whether it went through. *)
Record Delivery : Type := mkDelivery {
  to_user : string;
  to_ws : WebSocket;
  payload : json;
  delivered : bool
}.

Record World (Net : Type) : Type := mkWorld {
  registry : Registry;
  network : Net;
  outbox : list Delivery
}.
Arguments mkWorld {Net} _ _ _.
Arguments registry {Net} _.
Arguments network {Net} _.
Arguments outbox {Net} _.

(** A computation over the world; [None] is a propagating exception. *)
Definition M (Net A : Type) : Type := World Net → option A * World Net.

Definition ret {Net A} (a : A) : M Net A := λ w, (Some a, w).

Definition raise {Net A} : M Net A := λ w, (None, w).

Definition bind {Net A B} (m : M Net A) (f : A → M Net B) : M Net B :=
  λ w, match m w with
       | (Some a, w') => f a w'
       | (None, w') => (None, w')
       end.

Declare Scope coroutine_scope.
Delimit Scope coroutine_scope with coro.
Notation "x <- m ;; k" := (bind m (λ x, k))
  (at level 20, m at level 99, k at level 200, only parsing) : coroutine_scope.

Definition get_registry {Net} : M Net Registry := λ w, (Some (registry w), w).

Definition set_registry {Net} (reg : Registry) : M Net unit :=
  λ w, (Some tt, mkWorld reg (network w) (outbox w)).

(** ** Messages of the wire protocol built by the server *)

Definition room_state_msg (participants : list (dict json)) : json :=
  JObj [("type", JStr "room_state"); ("participants", JList (JObj <$> participants))].

Definition user_joined_msg (user_id : string) (user_info : json) : json :=
  JObj [("type", JStr "user_joined"); ("user_id", JStr user_id);
        ("user_info", user_info)].

Definition user_left_msg (user_id : string) : json :=
  JObj [("type", JStr "user_left"); ("user_id", JStr user_id)].

Definition speaking_msg (user_id : string) (is_speaking : json) : json :=
  JObj [("type", JStr "speaking"); ("user_id", JStr user_id);
        ("is_speaking", is_speaking)].

(** The envelope of a relayed [offer], [answer] or [ice_candidate]. *)
Definition envelope (kind from_user_id field : string) (value : json) : json :=
  JObj [("type", JStr kind); ("from_user_id", JStr from_user_id); (field, value)].

(** [value == s] for a decoded value and a string literal. *)
Definition json_is_str (value : json) (s : string) : bool :=
  match value with
  | JStr s' => bool_decide (s' = s)
  | _ => false
  end.

(** What the handler gets from [await websocket.receive_json()]: a decoded
    value, or an exception (the peer went away, or the text is not JSON). *)
Inductive Inbound : Type :=
| Received (value : json)
| ReceiveFailed.

(** Where a handler is in [websocket_endpoint]: before the first receive,
    inside [while True], or past the [finally] block. *)
Inductive Phase : Type := Connecting | Active | Closed.

(** ** The connection manager and the endpoint *)

Section Server.
Context {Net : Type}.

(** The network: what one [send_json] on a channel does, and whether it
    returns ([true]) or raises ([false]). *)
Variable transmit : Net → WebSocket → json → Net * bool.

Local Open Scope coroutine_scope.

(** [try: await websocket.send_json(message)] with the outcome as a flag;
    every attempt is logged in the outbox. *)
Definition try_send (user_id : string) (ws : WebSocket) (message : json)
  : M Net bool :=
  λ w, let '(net', ok) := transmit (network w) ws message in
       (Some ok,
        mkWorld (registry w) net' (outbox w ++ [mkDelivery user_id ws message ok])).

(** [await websocket.send_json(message)] outside of any [try]. *)
Definition send_json (user_id : string) (ws : WebSocket) (message : json)
  : M Net unit :=
  ok <- try_send user_id ws message ;;
  if ok then ret tt else raise.

(** The [for] loop of [broadcast_to_room] when no other task is scheduled
    while it awaits its sends: the dictionary it iterates then stays as it
    was when the loop began, and the loop goes through its items; returns
    [disconnected_users].  [send_each_live] is the loop with the other
    handlers running during the awaits, where the iteration can raise. *)
Fixpoint send_each (members : dict WebSocket) (message : json)
    (exclude_user : option string) : M Net (list string) :=
  match members with
  | [] => ret []
  | (user_id, ws) :: rest =>
      if decide (exclude_user = Some user_id) then
        send_each rest message exclude_user
      else
        ok <- try_send user_id ws message ;;
        failed <- send_each rest message exclude_user ;;
        ret (if ok then failed else user_id :: failed)
  end.

(** The clean-up loop of [broadcast_to_room]. *)
Definition disconnect_all (reg : Registry) (room_id : string)
    (disconnected_users : list string) : Registry :=
  foldl (λ r user_id, disconnect r room_id user_id) reg disconnected_users.

(** [ConnectionManager.broadcast_to_room], run without another task being
    scheduled during its awaits; [broadcast_to_room_live] is the call with
    the other handlers running meanwhile. *)
Definition broadcast_to_room (room_id : string) (message : json)
    (exclude_user : option string) : M Net unit :=
  reg <- get_registry ;;
  match rooms reg !! room_id with
  | None => ret tt
  | Some members =>
      disconnected_users <- send_each members message exclude_user ;;
      reg' <- get_registry ;;
      set_registry (disconnect_all reg' room_id disconnected_users)
  end.

(** [ConnectionManager.send_to_user].  The target comes from
    [data.get("target_user_id")], so it is any decoded value: a list or an
    object is unhashable and [user_id in rooms[room_id]] raises
    [TypeError]; [None], a boolean or a number equals no string key. *)
Definition send_to_user (room_id : string) (target : json) (message : json)
  : M Net unit :=
  reg <- get_registry ;;
  match rooms reg !! room_id with
  | None => ret tt
  | Some members =>
      match target with
      | JStr user_id =>
          match dict_get user_id members with
          | Some ws =>
              ok <- try_send user_id ws message ;;
              if ok then ret tt
              else (reg' <- get_registry ;;
                    set_registry (disconnect reg' room_id user_id))
          | None => ret tt
          end
      | JList _ | JObj _ => raise
      | JNull | JBool _ | JNum _ => ret tt
      end
  end.

(** [await websocket.receive_json()] *)
Definition receive_json (ev : Inbound) : M Net json :=
  match ev with
  | Received value => ret value
  | ReceiveFailed => raise
  end.

(** [value.get(key, dflt)]; [AttributeError] unless [value] is a dict. *)
Definition json_get (value : json) (key : string) (dflt : json) : M Net json :=
  match value with
  | JObj fields => ret (default dflt (dict_get key fields))
  | _ => raise
  end.

(** The branch [if init_message.get("type") == "join":].  The Telegram
    notification that ends the branch is a task spawned on the side; it
    touches neither the registry nor a channel and raises nothing into
    the handler, so it has no counterpart here. *)
Definition join_branch (room_id user_id : string) (ws : WebSocket)
    (init_message : json) : M Net unit :=
  user_info <- json_get init_message "user_info" (JObj []) ;;
  reg <- get_registry ;;
  let reg1 := bind_channel reg room_id user_id ws in
  _ <- set_registry reg1 ;;
  match store_user reg1 room_id user_id user_info with
  | None => raise
  | Some reg2 =>
      _ <- set_registry reg2 ;;
      _ <- send_json user_id ws (room_state_msg (get_room_participants reg2 room_id)) ;;
      broadcast_to_room room_id (user_joined_msg user_id user_info) (Some user_id)
  end.

(** The code from [await websocket.accept()] up to [while True]. *)
Definition first_message (room_id user_id : string) (ws : WebSocket)
    (ev : Inbound) : M Net unit :=
  init_message <- receive_json ev ;;
  message_type <- json_get init_message "type" JNull ;;
  if json_is_str message_type "join" then join_branch room_id user_id ws init_message
  else ret tt.

(** The three relaying branches of the loop, which differ in two strings. *)
Definition relay (room_id user_id : string) (data : json) (kind field : string)
  : M Net unit :=
  target_user <- json_get data "target_user_id" JNull ;;
  value <- json_get data field JNull ;;
  send_to_user room_id target_user (envelope kind user_id field value).

(** One iteration of [while True]. *)
Definition next_message (room_id user_id : string) (ev : Inbound) : M Net unit :=
  data <- receive_json ev ;;
  message_type <- json_get data "type" JNull ;;
  if json_is_str message_type "offer" then
    relay room_id user_id data "offer" "offer"
  else if json_is_str message_type "answer" then
    relay room_id user_id data "answer" "answer"
  else if json_is_str message_type "ice_candidate" then
    relay room_id user_id data "ice_candidate" "candidate"
  else if json_is_str message_type "speaking" then
    is_speaking <- json_get data "is_speaking" (JBool false) ;;
    broadcast_to_room room_id (speaking_msg user_id is_speaking) (Some user_id)
  else ret tt.

(** The [finally] block. *)
Definition cleanup (room_id user_id : string) : M Net unit :=
  reg <- get_registry ;;
  _ <- set_registry (disconnect reg room_id user_id) ;;
  broadcast_to_room room_id (user_left_msg user_id) None.

(** [try: body / except: pass / finally: cleanup]: the handler stays in
    the loop when the body returns, and is closed after the clean-up
    when it raises. *)
Definition guarded (room_id user_id : string) (body : M Net unit)
    (w : World Net) : Phase * World Net :=
  match body w with
  | (Some _, w') => (Active, w')
  | (None, w') => (Closed, (cleanup room_id user_id w').2)
  end.

(** The handler of one connection, advanced by one inbound event. *)
Definition handler_step (room_id user_id : string) (ws : WebSocket)
    (phase : Phase) (ev : Inbound) (w : World Net) : Phase * World Net :=
  match phase with
  | Connecting => guarded room_id user_id (first_message room_id user_id ws ev) w
  | Active => guarded room_id user_id (next_message room_id user_id ev) w
  | Closed => (Closed, w)
  end.

(** The handler run over the events of its connection, in order. *)
Fixpoint handler_run (room_id user_id : string) (ws : WebSocket)
    (phase : Phase) (evs : list Inbound) (w : World Net) : Phase * World Net :=
  match evs with
  | [] => (phase, w)
  | ev :: evs' =>
      let '(phase', w') := handler_step room_id user_id ws phase ev w in
      handler_run room_id user_id ws phase' evs' w'
  end.

(** [websocket_endpoint]: a run from the accepted connection. *)
Definition websocket_endpoint (room_id user_id : string) (ws : WebSocket)
    (evs : list Inbound) (w : World Net) : Phase * World Net :=
  handler_run room_id user_id ws Connecting evs w.

End Server.

(** ** A concrete network, for running the server on examples

    The network state is the list of channels whose peer is gone; a send
    on one of them raises, any other send goes through. *)
Definition dead_channels : Type := list WebSocket.

Definition drop_dead (net : dead_channels) (ws : WebSocket) (message : json)
  : dead_channels * bool :=
  (net, bool_decide (ws ∉ net)).

Definition fresh_world (net : dead_channels) : World dead_channels :=
  mkWorld empty_registry net [].

Definition join_msg (user_info : dict json) : json :=
  JObj [("type", JStr "join"); ("user_info", JObj user_info)].

Definition offer_msg (target sdp : string) : json :=
  JObj [("type", JStr "offer"); ("target_user_id", JStr target); ("offer", JStr sdp)].

(** ** Sequences of registry operations

    The registry is written in two places only: the join branch of the
    endpoint and [disconnect] ([ConnectionManager.connect] writes it as
    the join branch does, and nothing calls it).  Neither contains an
    [await], so whatever the interleaving of the connection handlers, the
    registry goes through a sequence of these two operations. *)

(** The registry part of the join branch (lines 276 to 283 of the source).
    When [user_info] is not a mapping the second assignment raises and the
    registry is left with the channel bound and no record stored. *)
Definition add_participant (reg : Registry) (room_id user_id : string)
    (ws : WebSocket) (user_info : json) : Registry :=
  let reg1 := bind_channel reg room_id user_id ws in
  default reg1 (store_user reg1 room_id user_id user_info).

Inductive RegistryOp : Type :=
| Join (room_id user_id : string) (ws : WebSocket) (user_info : json)
| Leave (room_id user_id : string).

Definition apply_op (reg : Registry) (op : RegistryOp) : Registry :=
  match op with
  | Join room_id user_id ws user_info => add_participant reg room_id user_id ws user_info
  | Leave room_id user_id => disconnect reg room_id user_id
  end.

Definition run_ops (ops : list RegistryOp) : Registry :=
  foldl apply_op empty_registry ops.

(** [len(rooms.get(room_id, {}))] *)
Definition participant_count (reg : Registry) (room_id : string) : nat :=
  length (room_members reg room_id).

(** ** Vocabulary of the properties *)

(** Every room of the map has a participant. *)
Definition rooms_nonempty (reg : Registry) : Prop :=
  ∀ room_id members, rooms reg !! room_id = Some members → members ≠ [].

(** Within a room a participant key is bound once. *)
Definition room_keys_unique (reg : Registry) : Prop :=
  ∀ room_id members, rooms reg !! room_id = Some members → NoDup (dict_keys members).

(** Every stored record names a room. *)
Definition records_name_room (reg : Registry) : Prop :=
  ∀ user_id record, users reg !! user_id = Some record →
    ∃ room_id, dict_get "room_id" record = Some (JStr room_id).


(** Decide the comparisons of a known message type with the literals of
    the dispatch. *)
Ltac eval_json_is_str :=
  repeat match goal with
         | |- context [json_is_str (JStr ?a) ?b] =>
             let v := eval vm_compute in (json_is_str (JStr a) b) in
             change (json_is_str (JStr a) b) with v
         end;
  cbv iota.

(** The message types the loop relays to one target, each with the field
    that carries its payload. *)
Definition relayed_kinds : list (string * string) :=
  [("offer", "offer"); ("answer", "answer"); ("ice_candidate", "candidate")].


(** ** What a handler can do to the registry

    A property of the registry that [disconnect] keeps is kept by every
    coroutine that writes the registry through [disconnect] only. *)
Definition preserves {Net A} (P : Registry → Prop) (m : M Net A) : Prop :=
  ∀ w, P (registry w) → P (registry (m w).2).

(** "B" alone in "r1", on channel 2. *)
Definition world_B : World dead_channels :=
  (websocket_endpoint drop_dead "r1" "B" 2 [Received (join_msg [])] (fresh_world [])).2.

(** "A" on channel 1, then "B" on channel 2, in "r1". *)
Definition world_AB : World dead_channels :=
  (websocket_endpoint drop_dead "r1" "B" 2 [Received (join_msg [])]
     (websocket_endpoint drop_dead "r1" "A" 1 [Received (join_msg [])]
        (fresh_world [])).2).2.

(** "A", "B" and "C" in "r1" on channels 1, 2 and 3; the peer of channel 1
    is gone and the log is empty. *)
Definition world_ABC_A_gone : World dead_channels :=
  mkWorld (run_ops [Join "r1" "A" 1 (JObj []); Join "r1" "B" 2 (JObj []);
                    Join "r1" "C" 3 (JObj [])])
          [1] [].

(** The claim C6 as the specification words it: removing a participant that
    is not in the room changes nothing in the registry. *)
Definition remove_absent_is_noop (reg : Registry) (room_id user_id : string) : Prop :=
  is_member reg room_id user_id = false → disconnect reg room_id user_id = reg.

(** The claim C7 as the specification words it: a participant key is in the
    connection map of at most one room. *)
Definition in_at_most_one_room (reg : Registry) (user_id : string) : Prop :=
  ∀ room1 room2,
    is_member reg room1 user_id = true → is_member reg room2 user_id = true →
    room1 = room2.

(** The claim C9 as the specification words it: the user_ids that the
    listing returns are the keys of the room that have a record. *)
Definition listing_returns_member_ids (reg : Registry) (room_id : string) : Prop :=
  dict_get "user_id" <$> get_room_participants reg room_id
  = (λ user_id, Some (JStr user_id)) <$>
      filter (λ user_id, is_Some (users reg !! user_id))
             (dict_keys (room_members reg room_id)).

(** The claim C10 as the specification words it, for the joiner's entry: the
    listing of the joined room has an entry carrying the joiner's key. *)
Definition listing_names_joiner (reg : Registry) (room_id user_id : string)
    (ws : WebSocket) (info : dict json) : Prop :=
  ∃ entry,
    entry ∈ get_room_participants
              (add_participant reg room_id user_id ws (JObj info)) room_id
    ∧ dict_get "user_id" entry = Some (JStr user_id).



(** ** The rest of [main.py]: the unused [connect], the read endpoint and
       the ICE configuration *)

(** The literals the loop of [websocket_endpoint] dispatches on. *)
Definition dispatched_types : list string :=
  ["offer"; "answer"; "ice_candidate"; "speaking"].

(** A decoded value that cannot be hashed: using it as a dictionary key
    raises [TypeError]. *)
Definition unhashable (value : json) : bool :=
  match value with
  | JList _ | JObj _ => true
  | _ => false
  end.

(** A decoded value that can be hashed and equals no string: [None], a
    boolean or a number. *)
Definition never_a_key (value : json) : bool :=
  match value with
  | JNull | JBool _ | JNum _ => true
  | _ => false
  end.

(** The [user_joined] message of [ConnectionManager.connect], which also
    carries the listing. *)
Definition user_joined_listing_msg (user_id : string) (user_info : json)
    (participants : list (dict json)) : json :=
  JObj [("type", JStr "user_joined"); ("user_id", JStr user_id);
        ("user_info", user_info);
        ("participants", JList (JObj <$> participants))].

Section Connect.
Context {Net : Type}.
Variable transmit : Net → WebSocket → json → Net * bool.

Local Open Scope coroutine_scope.

(** [ConnectionManager.connect] from the statement after
    [await websocket.accept()], that is once the accept has returned, and
    run without another task being scheduled during its awaits;
    [connect_live] is the whole call, from the accept, with the other
    handlers running meanwhile.  Nothing in the repository calls
    [connect]; unlike the endpoint it has no [finally]. *)
Definition connect (room_id user_id : string) (ws : WebSocket)
    (user_info : json) : M Net unit :=
  reg <- get_registry ;;
  let reg1 := bind_channel reg room_id user_id ws in
  _ <- set_registry reg1 ;;
  match store_user reg1 room_id user_id user_info with
  | None => raise
  | Some reg2 =>
      _ <- set_registry reg2 ;;
      broadcast_to_room transmit room_id
        (user_joined_listing_msg user_id user_info
           (get_room_participants reg2 room_id))
        None
  end.

End Connect.

(** [GET /api/room/{room_id}/participants] *)
Definition room_participants_response (reg : Registry) (room_id : string) : json :=
  let participants := get_room_participants reg room_id in
  JObj [("room_id", JStr room_id);
        ("participants", JList (JObj <$> participants));
        ("count", JNum (Z.of_nat (length participants)))].

(** [bool(s)] for the value of an environment variable or an optional
    string: [None] and the empty string are false. *)
Definition str_truthy (s : option string) : bool :=
  match s with
  | Some (String _ _) => true
  | _ => false
  end.

(** [s.replace(old, new)] for a non-empty [old]: the occurrences of [old]
    are found from the left and do not overlap.  [skip] counts the
    characters of an occurrence that are still to be passed over. *)
Fixpoint replace_from (old new : string) (skip : nat) (s : string) : string :=
  match s with
  | EmptyString => EmptyString
  | String c s' =>
      match skip with
      | S skip' => replace_from old new skip' s'
      | O =>
          if String.prefix old s
          then new ++ replace_from old new (String.length old - 1) s'
          else String c (replace_from old new 0 s')
      end
  end.

Definition str_replace (old new s : string) : string := replace_from old new 0 s.

(** [old in s] *)
Fixpoint str_contains (old s : string) : bool :=
  String.prefix old s ||
  match s with
  | EmptyString => false
  | String _ s' => str_contains old s'
  end.

Definition stun_server (urls : string) : dict json := [("urls", JStr urls)].

Definition turn_server (urls username credential : string) : dict json :=
  [("urls", JStr urls); ("username", JStr username); ("credential", JStr credential)].

(** The list [ice_servers] of [get_ice_config], from the three environment
    variables [TURN_URL], [TURN_USERNAME] and [TURN_PASSWORD]. *)
Definition ice_servers (env_turn_url env_username env_password : option string)
  : list (dict json) :=
  let base := [stun_server "stun:stun.l.google.com:19302";
               stun_server "stun:stun1.l.google.com:19302"] in
  let turn_url := default "turn:global.relay.metered.ca:80" env_turn_url in
  if str_truthy env_username && str_truthy env_password then
    let turn_username := default "" env_username in
    let turn_password := default "" env_password in
    (base ++ [turn_server turn_url turn_username turn_password;
              turn_server (str_replace ":80" ":80?transport=tcp" turn_url)
                          turn_username turn_password;
              turn_server (str_replace ":80" ":443" turn_url)
                          turn_username turn_password])%list
  else (base ++ [stun_server "stun:stun2.l.google.com:19302"])%list.

(** [GET /api/ice-config] *)
Definition get_ice_config (env_turn_url env_username env_password : option string)
  : json :=
  JObj [("iceServers",
         JList (JObj <$> ice_servers env_turn_url env_username env_password));
        ("iceCandidatePoolSize", JNum 10)].

(** No occurrence of [old] starts inside [head] when [head] is followed by
    [rest]. *)
Fixpoint no_match_within (old head rest : string) : bool :=
  match head with
  | EmptyString => true
  | String _ head' =>
      negb (String.prefix old (head ++ rest)) && no_match_within old head' rest
  end.

(** The ["urls"] fields of a list of servers. *)
Definition server_urls (servers : list (dict json)) : list (option json) :=
  dict_get "urls" <$> servers.

(** ** [telegram_bot.py] and the endpoint that reads profile photos *)

Record TelegramBot : Type := mkTelegramBot {
  bot_token : option string;
  base_url : option string
}.

(** [TelegramBot.__init__]: [bot_token or os.getenv("TELEGRAM_BOT_TOKEN")],
    and the base URL when that token is not empty. *)
Definition TelegramBot_init (token_arg env_token : option string) : TelegramBot :=
  let token := if str_truthy token_arg then token_arg else env_token in
  mkTelegramBot token
    (if str_truthy token
     then Some ("https://api.telegram.org/bot" ++ default "" token)
     else None).

(** [TelegramBot.is_configured] *)
Definition is_configured (bot : TelegramBot) : bool := str_truthy (bot_token bot).

(** [f"{x}"] for a string or [None]. *)
Definition py_format (x : option string) : string := default "None" x.

(** [bool(value)] for a decoded value. *)
Definition py_truthy (value : json) : bool :=
  match value with
  | JNull => false
  | JBool b => b
  | JNum n => negb (n =? 0)%Z
  | JStr s => str_truthy (Some s)
  | JList items => match items with [] => false | _ :: _ => true end
  | JObj fields => negb (dict_is_empty fields)
  end.

(** [value > 0]: defined on numbers and booleans, [TypeError] otherwise. *)
Definition py_gt_zero (value : json) : option bool :=
  match value with
  | JNum n => Some (0 <? n)%Z
  | JBool b => Some b
  | _ => None
  end.

(** [value[key]] for a string key: the field of a dict; [KeyError] or
    [TypeError] otherwise. *)
Definition py_getitem (value : json) (key : string) : option json :=
  match value with
  | JObj fields => dict_get key fields
  | _ => None
  end.

Inductive HttpMethod : Type := GET | POST.

(** A request made through [httpx]: the query parameters of a GET, the JSON
    body of a POST. *)
Record HttpRequest : Type := mkHttpRequest {
  http_method : HttpMethod;
  http_url : string;
  http_payload : dict json
}.

(** What [getUserProfilePhotos] returns from a decoded body. *)
Definition photos_of_response (data : json) : option json :=
  match data with
  | JObj fields =>
      if py_truthy (default JNull (dict_get "ok" fields)) then
        match default (JObj []) (dict_get "result" fields) with
        | JObj result =>
            match py_gt_zero (default (JNum 0) (dict_get "total_count" result)) with
            | Some true => dict_get "result" fields
            | _ => None
            end
        | _ => None
        end
      else None
  | _ => None
  end.

(** The expression [photos["photos"][0][-1]["file_id"]] of [get_user_info]:
    the last size of the first photo; [None] when one of the four
    subscripts raises. *)
Definition first_photo_file_id (photos : json) : option json :=
  match py_getitem photos "photos" with
  | Some (JList (JList sizes :: _)) =>
      match last sizes with
      | Some photo => py_getitem photo "file_id"
      | None => None
      end
  | _ => None
  end.

Section Telegram.

(** The Telegram server seen through [httpx]: the decoded body of the
    response, or [None] when anything between the request and
    [response.json()] raises (all of it is inside [try]). *)
Variable http : HttpRequest → option json.

(** The builtin [str] on decoded values, used by an f-string. *)
Variable py_str : json → string.

(** [TelegramBot.get_user_profile_photos]: the requests made and the value
    returned ([None] is Python's [None]). *)
Definition get_user_profile_photos (bot : TelegramBot) (user_id : Z)
  : list HttpRequest * option json :=
  if is_configured bot then
    let request :=
      mkHttpRequest GET (py_format (base_url bot) ++ "/getUserProfilePhotos")
        [("user_id", JNum user_id); ("limit", JNum 1)] in
    ([request], http request ≫= photos_of_response)
  else ([], None).

(** What [get_file_url] returns from a decoded body. *)
Definition file_url_of_response (bot : TelegramBot) (data : json) : option string :=
  match data with
  | JObj fields =>
      if py_truthy (default JNull (dict_get "ok" fields)) then
        result ← dict_get "result" fields;
        file_path ← py_getitem result "file_path";
        Some ("https://api.telegram.org/file/bot" ++ py_format (bot_token bot)
              ++ "/" ++ py_str file_path)
      else None
  | _ => None
  end.

(** [TelegramBot.get_file_url] *)
Definition get_file_url (bot : TelegramBot) (file_id : json)
  : list HttpRequest * option string :=
  if is_configured bot then
    let request :=
      mkHttpRequest GET (py_format (base_url bot) ++ "/getFile")
        [("file_id", file_id)] in
    ([request], http request ≫= file_url_of_response bot)
  else ([], None).

(** [TelegramBot.send_message]; the value returned is the ["ok"] field of
    the body as it is, whatever its type. *)
Definition send_message (bot : TelegramBot) (chat_id : Z) (text parse_mode : string)
  : list HttpRequest * json :=
  if is_configured bot then
    let request :=
      mkHttpRequest POST (py_format (base_url bot) ++ "/sendMessage")
        [("chat_id", JNum chat_id); ("text", JStr text);
         ("parse_mode", JStr parse_mode)] in
    ([request],
     match http request with
     | Some (JObj fields) => default (JBool false) (dict_get "ok" fields)
     | _ => JBool false
     end)
  else ([], JBool false).

(** [GET /api/user/{user_id}] of [main.py]: the requests made and the body
    of the answer, or [None] when the handler raises. *)
Definition get_user_info (bot : TelegramBot) (user_id : Z)
  : list HttpRequest * option json :=
  if is_configured bot then
    let '(requests1, photos) := get_user_profile_photos bot user_id in
    let no_photo :=
      Some (JObj [("success", JBool true); ("user_id", JNum user_id);
                  ("has_photo", JBool false)]) in
    match photos with
    | Some (JObj fields) =>
        if py_truthy (JObj fields) then
          match py_gt_zero (default (JNum 0) (dict_get "total_count" fields)) with
          | Some true =>
              match first_photo_file_id (JObj fields) with
              | Some file_id =>
                  let '(requests2, photo_url) := get_file_url bot file_id in
                  ((requests1 ++ requests2)%list,
                   Some (JObj [("success", JBool true); ("user_id", JNum user_id);
                               ("photo_url", from_option JStr JNull photo_url);
                               ("has_photo", JBool true)]))
              | None => (requests1, None)
              end
          | Some false => (requests1, no_photo)
          | None => (requests1, None)
          end
        else (requests1, no_photo)
    | Some other =>
        if py_truthy other then (requests1, None) else (requests1, no_photo)
    | None => (requests1, no_photo)
    end
  else
    ([], Some (JObj [("success", JBool false);
                     ("message", JStr "Telegram Bot API не настроен. Установите TELEGRAM_BOT_TOKEN в переменных окружения.")])).

End Telegram.

(** ** Telegram servers and a [str] for running the client on examples *)

(** A server that reports one photo in two sizes and resolves any file. *)
Definition telegram_with_photo (request : HttpRequest) : option json :=
  Some (JObj [("ok", JBool true);
              ("result",
               JObj [("total_count", JNum 1);
                     ("photos",
                      JList [JList [JObj [("file_id", JStr "small")];
                                    JObj [("file_id", JStr "big")]]]);
                     ("file_path", JStr "photos/a.jpg")])]).

(** A server that counts one photo and lists none. *)
Definition telegram_without_sizes (request : HttpRequest) : option json :=
  Some (JObj [("ok", JBool true);
              ("result", JObj [("total_count", JNum 1); ("photos", JList [])])]).

(** [str] on the strings among the decoded values. *)
Definition str_of_json (value : json) : string :=
  match value with
  | JStr s => s
  | _ => ""
  end.

(** ** The server with the other handlers running during its awaits

    The manager and the handler defined so far run each call without
    another task being scheduled while the call awaits a send.  In the
    source every [await websocket.send_json(...)] hands control to the
    event loop, and the handlers of the other connections may join and
    leave meanwhile.  The definitions of this part take the scheduler as a
    parameter: what one awaited send does to the network, which registry
    operations the other handlers perform before the call resumes, and
    whether the send returns.

    [broadcast_to_room] iterates [rooms[room_id].items()], a view of the
    live dictionary, with the [await] inside the loop and the iteration
    outside the [try]: when the dictionary changed size since the loop
    began, the next step of the iteration raises [RuntimeError], which
    leaves the call. *)

(** The dictionary object a loop iterates, followed through the operations
    of the other handlers: its entries, whether it still is the value of
    [rooms[room_id]] (a room deleted and created again is another object),
    and whether an entry was ever deleted from it since the loop began.
    The other handlers write the registry by joining ([Join]: the two
    assignments of the join branch, with no await between them) and by
    [disconnect] ([Leave]); a join whose metadata is no object binds the
    channel, raises and is undone by the [finally] block in one go, which
    is a [Join] followed by a [Leave]. *)
Record DictIter : Type := mkDictIter {
  it_items : dict WebSocket;
  it_attached : bool;
  it_churned : bool
}.

Definition track_op (room_id : string) (it : DictIter) (op : RegistryOp) : DictIter :=
  match op with
  | Join room_id' user_id ws _ =>
      if it_attached it && bool_decide (room_id' = room_id)
      then mkDictIter (dict_set user_id ws (it_items it)) true (it_churned it)
      else it
  | Leave room_id' user_id =>
      if it_attached it && bool_decide (room_id' = room_id)
         && dict_mem user_id (it_items it)
      then let items := dict_del user_id (it_items it) in
           mkDictIter items (negb (dict_is_empty items)) true
      else it
  end.

(** One step of a dictionary iterator. *)
Inductive IterStep : Type :=
| IterRaise
| IterStop
| IterYield (user_id : string) (ws : WebSocket).

(** No other handler writes the registry while a send is awaited. *)
Definition quiet {Net : Type}
    (schedule : Net → WebSocket → json → Net * list RegistryOp * bool) : Prop :=
  ∀ net ws message, (schedule net ws message).1.2 = [].

(** The network alone, as the scheduler drives it. *)
Definition transmit_of {Net : Type}
    (schedule : Net → WebSocket → json → Net * list RegistryOp * bool)
  : Net → WebSocket → json → Net * bool :=
  λ net ws message,
    ((schedule net ws message).1.1, (schedule net ws message).2).

Section Interleaved.
Context {Net : Type}.

(** One awaited send: the network afterwards, the operations of the other
    handlers in the meantime, and whether the send returns. *)
Variable schedule : Net → WebSocket → json → Net * list RegistryOp * bool.

(** What the iterator does once entries were deleted from the dictionary
    and as many added, so that the size is the one the loop began with: the
    language reference leaves it open (the loop may raise, miss entries or
    repeat them), and it is taken as it comes: it raises ([None]), stops
    ([Some None]) or yields the entry at some position. *)
Variable churned_next :
  Net → list string → dict WebSocket → option (option nat).

Local Open Scope coroutine_scope.

(** [await websocket.send_json(message)] inside a [try], with the registry
    as the other handlers leave it. *)
Definition await_send (user_id : string) (ws : WebSocket) (message : json)
  : M Net (bool * list RegistryOp) :=
  λ w, let '(net', ops, ok) := schedule (network w) ws message in
       (Some (ok, ops),
        mkWorld (foldl apply_op (registry w) ops) net'
                (outbox w ++ [mkDelivery user_id ws message ok])).

(** The next step of the iterator over the items of the room: [size] is
    the size of the dictionary when the loop began, [yielded] the keys the
    loop has had so far.  Every step first compares the sizes, the step
    that ends the loop too ([RuntimeError: dictionary changed size during
    iteration]); entries added by assignment to a key already there keep
    the size and the order. *)
Definition iter_next (net : Net) (it : DictIter) (size : nat)
    (yielded : list string) : IterStep :=
  if negb (length (it_items it) =? size)%nat then IterRaise
  else
    let entry position :=
      match it_items it !! position with
      | Some (user_id, ws) => IterYield user_id ws
      | None => IterStop
      end in
    if it_churned it then
      match churned_next net yielded (it_items it) with
      | None => IterRaise
      | Some None => IterStop
      | Some (Some position) => entry position
      end
    else entry (length yielded).

(** The [for] loop of [broadcast_to_room] over the live dictionary;
    returns [disconnected_users], or raises what the iteration raises.  An
    iterator yields no more items than the dictionary had when the loop
    began ([RuntimeError: dictionary keys changed during iteration]):
    [remaining] counts down from that size. *)
Fixpoint send_each_live (room_id : string) (message : json)
    (exclude_user : option string) (size remaining : nat) (it : DictIter)
    (yielded : list string) {struct remaining} : M Net (list string) :=
  λ w,
    match iter_next (network w) it size yielded with
    | IterRaise => raise w
    | IterStop => ret [] w
    | IterYield user_id ws =>
        match remaining with
        | O => raise w
        | S remaining' =>
            if decide (exclude_user = Some user_id) then
              send_each_live room_id message exclude_user size remaining' it
                (yielded ++ [user_id]) w
            else
              (sent <- await_send user_id ws message ;;
               failed <- send_each_live room_id message exclude_user size remaining'
                           (foldl (track_op room_id) it sent.2)
                           (yielded ++ [user_id]) ;;
               ret (if sent.1 then failed else user_id :: failed)) w
        end
    end.

(** [ConnectionManager.broadcast_to_room] with the other handlers running
    during its awaits. *)
Definition broadcast_to_room_live (room_id : string) (message : json)
    (exclude_user : option string) : M Net unit :=
  reg <- get_registry ;;
  match rooms reg !! room_id with
  | None => ret tt
  | Some members =>
      disconnected_users <-
        send_each_live room_id message exclude_user (length members)
          (length members) (mkDictIter members true false) [] ;;
      reg' <- get_registry ;;
      set_registry (disconnect_all reg' room_id disconnected_users)
  end.

(** [ConnectionManager.send_to_user] with the other handlers running during
    its await. *)
Definition send_to_user_live (room_id : string) (target : json) (message : json)
  : M Net unit :=
  reg <- get_registry ;;
  match rooms reg !! room_id with
  | None => ret tt
  | Some members =>
      match target with
      | JStr user_id =>
          match dict_get user_id members with
          | Some ws =>
              sent <- await_send user_id ws message ;;
              if sent.1 then ret tt
              else (reg' <- get_registry ;;
                    set_registry (disconnect reg' room_id user_id))
          | None => ret tt
          end
      | JList _ | JObj _ => raise
      | JNull | JBool _ | JNum _ => ret tt
      end
  end.

(** [await websocket.send_json(message)] outside of any [try]. *)
Definition send_json_live (user_id : string) (ws : WebSocket) (message : json)
  : M Net unit :=
  sent <- await_send user_id ws message ;;
  if sent.1 then ret tt else raise.

(** The branch [if init_message.get("type") == "join":], as [join_branch]. *)
Definition join_branch_live (room_id user_id : string) (ws : WebSocket)
    (init_message : json) : M Net unit :=
  user_info <- json_get init_message "user_info" (JObj []) ;;
  reg <- get_registry ;;
  let reg1 := bind_channel reg room_id user_id ws in
  _ <- set_registry reg1 ;;
  match store_user reg1 room_id user_id user_info with
  | None => raise
  | Some reg2 =>
      _ <- set_registry reg2 ;;
      _ <- send_json_live user_id ws
             (room_state_msg (get_room_participants reg2 room_id)) ;;
      broadcast_to_room_live room_id (user_joined_msg user_id user_info)
        (Some user_id)
  end.

Definition first_message_live (room_id user_id : string) (ws : WebSocket)
    (ev : Inbound) : M Net unit :=
  init_message <- receive_json ev ;;
  message_type <- json_get init_message "type" JNull ;;
  if json_is_str message_type "join"
  then join_branch_live room_id user_id ws init_message
  else ret tt.

Definition relay_live (room_id user_id : string) (data : json) (kind field : string)
  : M Net unit :=
  target_user <- json_get data "target_user_id" JNull ;;
  value <- json_get data field JNull ;;
  send_to_user_live room_id target_user (envelope kind user_id field value).

Definition next_message_live (room_id user_id : string) (ev : Inbound) : M Net unit :=
  data <- receive_json ev ;;
  message_type <- json_get data "type" JNull ;;
  if json_is_str message_type "offer" then
    relay_live room_id user_id data "offer" "offer"
  else if json_is_str message_type "answer" then
    relay_live room_id user_id data "answer" "answer"
  else if json_is_str message_type "ice_candidate" then
    relay_live room_id user_id data "ice_candidate" "candidate"
  else if json_is_str message_type "speaking" then
    is_speaking <- json_get data "is_speaking" (JBool false) ;;
    broadcast_to_room_live room_id (speaking_msg user_id is_speaking) (Some user_id)
  else ret tt.

(** The [finally] block; its broadcast may raise in its turn. *)
Definition cleanup_live (room_id user_id : string) : M Net unit :=
  reg <- get_registry ;;
  _ <- set_registry (disconnect reg room_id user_id) ;;
  broadcast_to_room_live room_id (user_left_msg user_id) None.

Definition guarded_live (room_id user_id : string) (body : M Net unit)
    (w : World Net) : Phase * World Net :=
  match body w with
  | (Some _, w') => (Active, w')
  | (None, w') => (Closed, (cleanup_live room_id user_id w').2)
  end.

(** The handler of one connection with the other handlers running during
    its awaits.  [ReceiveFailed] as first event also stands for an
    [await websocket.accept()] that raises: both lead to the [finally]
    block with nothing done before. *)
Definition handler_step_live (room_id user_id : string) (ws : WebSocket)
    (phase : Phase) (ev : Inbound) (w : World Net) : Phase * World Net :=
  match phase with
  | Connecting =>
      guarded_live room_id user_id (first_message_live room_id user_id ws ev) w
  | Active => guarded_live room_id user_id (next_message_live room_id user_id ev) w
  | Closed => (Closed, w)
  end.

(** [await websocket.accept()]: the network afterwards, the operations of
    the other handlers in the meantime, and whether it returns. *)
Variable accepts : Net → WebSocket → Net * list RegistryOp * bool.

(** [ConnectionManager.connect], from its first line. *)
Definition connect_live (room_id user_id : string) (ws : WebSocket)
    (user_info : json) : M Net unit :=
  λ w,
    let '(net', ops, ok) := accepts (network w) ws in
    let w' := mkWorld (foldl apply_op (registry w) ops) net' (outbox w) in
    if ok then
      (reg <- get_registry ;;
       let reg1 := bind_channel reg room_id user_id ws in
       _ <- set_registry reg1 ;;
       match store_user reg1 room_id user_id user_info with
       | None => raise
       | Some reg2 =>
           _ <- set_registry reg2 ;;
           broadcast_to_room_live room_id
             (user_joined_listing_msg user_id user_info
                (get_room_participants reg2 room_id))
             None
       end) w'
    else raise w'.

End Interleaved.

(** ** Schedulers for running the server on examples *)

(** Nobody else runs: a send fails exactly on a channel whose peer is gone. *)
Definition calm_schedule (net : dead_channels) (ws : WebSocket) (message : json)
  : dead_channels * list RegistryOp * bool :=
  (net, [], bool_decide (ws ∉ net)).

(** While a send on channel 1 is awaited, "C" joins "r1" on channel 3 (when
    "C" is bound there already, the join puts its channel in place). *)
Definition join_during_send (net : dead_channels) (ws : WebSocket) (message : json)
  : dead_channels * list RegistryOp * bool :=
  (net, if bool_decide (ws = 1) then [Join "r1" "C" 3 (JObj [])] else [],
   bool_decide (ws ∉ net)).

(** An iterator that gives up as soon as entries were deleted and added. *)
Definition strict_iterator (net : dead_channels) (yielded : list string)
    (items : dict WebSocket) : option (option nat) :=
  None.


(** "A" on channel 1, whose peer is gone, and "B" on channel 2, in "r1". *)
Definition world_AB_A_gone : World dead_channels :=
  mkWorld (run_ops [Join "r1" "A" 1 (JObj []); Join "r1" "B" 2 (JObj [])]) [1] [].

(** * Properties *)

(** ** Dictionaries *)

Section DictFacts.
Context {V : Type}.
Implicit Types (d : dict V) (k : string) (v : V).

Lemma dict_get_set_eq k v d : dict_get k (dict_set k v d) = Some v.
Proof.
  induction d as [|[k' v'] d IH]; simpl.
  - by rewrite decide_True.
  - destruct (decide (k = k')); simpl.
    + by rewrite decide_True.
    + by rewrite decide_False.
Qed.

Lemma dict_get_set_ne k k' v d :
  k ≠ k' → dict_get k' (dict_set k v d) = dict_get k' d.
Proof.
  intros Hne. induction d as [|[k0 v0] d IH]; simpl.
  - by rewrite decide_False.
  - destruct (decide (k = k0)) as [->|]; simpl.
    + by rewrite !decide_False.
    + by rewrite IH.
Qed.

Lemma dict_set_nonempty k v d : dict_set k v d ≠ [].
Proof. destruct d as [|[k' v'] d]; simpl; [done|]. by case_decide. Qed.

Lemma dict_get_del_eq k d : dict_get k (dict_del k d) = None.
Proof.
  unfold dict_del. induction d as [|[k' v'] d IH]; [done|].
  rewrite filter_cons. simpl. case_decide; simpl; [|done].
  by rewrite decide_False.
Qed.

Lemma dict_get_del_ne k k' d :
  k ≠ k' → dict_get k' (dict_del k d) = dict_get k' d.
Proof.
  intros Hne. unfold dict_del. induction d as [|[k0 v0] d IH]; [done|].
  rewrite filter_cons. simpl. case_decide; simpl.
  - by rewrite IH.
  - subst k0. by rewrite decide_False.
Qed.

(** Deleting a key only removes bindings. *)
Lemma dict_get_del_Some k k' v d :
  dict_get k' (dict_del k d) = Some v → dict_get k' d = Some v.
Proof.
  destruct (decide (k = k')) as [->|Hne].
  - by rewrite dict_get_del_eq.
  - by rewrite dict_get_del_ne.
Qed.

Lemma dict_get_None k d : dict_get k d = None ↔ k ∉ dict_keys d.
Proof.
  unfold dict_keys. induction d as [|[k' v'] d IH]; simpl.
  - split; [intros _; apply not_elem_of_nil | done].
  - rewrite not_elem_of_cons, <- IH. case_decide; [|tauto].
    split; [done|]. intros [? _]. congruence.
Qed.

Lemma dict_get_Some_key k v d : dict_get k d = Some v → k ∈ dict_keys d.
Proof.
  intros Hget. destruct (decide (k ∈ d.*1)) as [|Hnot]; [done|].
  apply dict_get_None in Hnot. congruence.
Qed.

Lemma dict_del_absent k d : dict_get k d = None → dict_del k d = d.
Proof.
  unfold dict_del. induction d as [|[k' v'] d IH]; [done|].
  intros Hget. simpl in Hget. case_decide; [done|].
  rewrite filter_cons. simpl. rewrite decide_True by done. by rewrite IH.
Qed.

Lemma dict_keys_set k v d :
  dict_keys (dict_set k v d) =
  if dict_mem k d then dict_keys d else (dict_keys d ++ [k])%list.
Proof.
  unfold dict_keys, dict_mem. induction d as [|[k' v'] d IH]; [done|].
  cbn [dict_set dict_get]. case_decide; [by subst|].
  rewrite !fmap_cons, IH. by destruct (dict_get k d).
Qed.

Lemma dict_set_NoDup k v d : NoDup (dict_keys d) → NoDup (dict_keys (dict_set k v d)).
Proof.
  intros Hnd. rewrite dict_keys_set. unfold dict_mem.
  destruct (dict_get k d) eqn:Hget; [done|].
  apply NoDup_app. split_and!; [done| |apply NoDup_singleton].
  intros x Hx ->%list_elem_of_singleton. by apply dict_get_None in Hget.
Qed.

Lemma dict_del_NoDup k d : NoDup (dict_keys d) → NoDup (dict_keys (dict_del k d)).
Proof.
  unfold dict_keys, dict_del. induction d as [|[k' v'] d IH]; [done|].
  rewrite filter_cons. simpl. intros [Hk Hd]%NoDup_cons. case_decide; simpl.
  - apply NoDup_cons. split; [|by apply IH].
    intros Hin. apply Hk. revert Hin. rewrite !list_elem_of_fmap.
    intros (x & -> & Hx). exists x. split; [done|].
    by apply list_elem_of_filter in Hx as [_ Hx].
  - by apply IH.
Qed.

(** [{**base, **extra}]: a key of [extra] takes its value from [extra],
    any other key keeps the value of [base]. *)
Lemma dict_get_merge k (base extra : dict V) :
  NoDup (dict_keys extra) →
  dict_get k (dict_merge base extra) =
  match dict_get k extra with
  | Some v => Some v
  | None => dict_get k base
  end.
Proof.
  unfold dict_merge, dict_keys. revert base.
  induction extra as [|[k' v'] extra IH]; intros base Hnd; simpl; [done|].
  apply NoDup_cons in Hnd as [Hk Hnd]. rewrite IH by done.
  case_decide as Hkk.
  - subst k'. apply (dict_get_None k extra) in Hk. rewrite Hk.
    apply dict_get_set_eq.
  - destruct (dict_get k extra); [done|]. by apply dict_get_set_ne.
Qed.
End DictFacts.

Lemma dict_is_empty_true {V} (d : dict V) : dict_is_empty d = true → d = [].
Proof. by destruct d. Qed.

(** ** The registry *)

Lemma disconnect_users reg room_id user_id :
  users (disconnect reg room_id user_id) = delete user_id (users reg).
Proof.
  unfold disconnect; simpl.
  destruct (users reg !! user_id) eqn:Hu; [done|]. by rewrite delete_id.
Qed.

(** After [disconnect] the pair is unbound, every other binding is as before. *)
Lemma room_lookup_disconnect reg room_id user_id room_id' user_id' :
  room_lookup (disconnect reg room_id user_id) room_id' user_id' =
  if decide (room_id = room_id' ∧ user_id = user_id') then None
  else room_lookup reg room_id' user_id'.
Proof.
  unfold room_lookup, disconnect, dict_mem; cbn [rooms].
  destruct (rooms reg !! room_id) as [members|] eqn:Hroom.
  - destruct (dict_get user_id members) as [ws|] eqn:Hmem.
    + destruct (dict_is_empty (dict_del user_id members)) eqn:Hempty.
      * apply dict_is_empty_true in Hempty.
        rewrite lookup_delete. case_decide as Hr.
        -- subst room_id'. case_decide; [done|].
           rewrite Hroom. cbn.
           destruct (decide (user_id = user_id')) as [->|Hne]; [tauto|].
           by rewrite <- (dict_get_del_ne user_id user_id' members), Hempty.
        -- by rewrite decide_False by tauto.
      * rewrite lookup_insert. case_decide as Hr.
        -- subst room_id'. rewrite Hroom. cbn. case_decide as Hu.
           ++ destruct Hu as [_ <-]. apply dict_get_del_eq.
           ++ apply dict_get_del_ne. tauto.
        -- by rewrite decide_False by tauto.
    + case_decide as Hu; [|done]. destruct Hu as [<- <-]. by rewrite Hroom.
  - case_decide as Hu; [|done]. destruct Hu as [<- <-]. by rewrite Hroom.
Qed.

Lemma room_lookup_disconnect_same reg room_id user_id :
  room_lookup (disconnect reg room_id user_id) room_id user_id = None.
Proof. rewrite room_lookup_disconnect. by rewrite decide_True. Qed.


Lemma users_disconnect_Some reg room_id user_id user_id' record :
  users (disconnect reg room_id user_id) !! user_id' = Some record →
  users reg !! user_id' = Some record.
Proof. rewrite disconnect_users. by intros [_ ?]%lookup_delete_Some. Qed.

(** [disconnect] leaves the rooms map alone unless the pair is bound. *)
Lemma disconnect_rooms_absent reg room_id user_id :
  room_lookup reg room_id user_id = None →
  rooms (disconnect reg room_id user_id) = rooms reg.
Proof.
  unfold room_lookup, disconnect, dict_mem; simpl.
  destruct (rooms reg !! room_id) as [members|]; simpl; [|done].
  by intros ->.
Qed.

Lemma disconnect_rooms_nonempty reg room_id user_id :
  rooms_nonempty reg → rooms_nonempty (disconnect reg room_id user_id).
Proof.
  intros Hinv room_id' members'. unfold disconnect; simpl.
  destruct (rooms reg !! room_id) as [members|] eqn:Hroom; [|apply Hinv].
  destruct (dict_mem user_id members); [|apply Hinv].
  destruct (dict_is_empty (dict_del user_id members)) eqn:Hempty.
  - intros [_ ?]%lookup_delete_Some. by eapply Hinv.
  - intros [[_ <-]|[_ ?]]%lookup_insert_Some; [|by eapply Hinv].
    by intros Hnil; rewrite Hnil in Hempty.
Qed.

Lemma disconnect_room_keys_unique reg room_id user_id :
  room_keys_unique reg → room_keys_unique (disconnect reg room_id user_id).
Proof.
  intros Hinv room_id' members'. unfold disconnect; simpl.
  destruct (rooms reg !! room_id) as [members|] eqn:Hroom; [|apply Hinv].
  destruct (dict_mem user_id members); [|apply Hinv].
  destruct (dict_is_empty (dict_del user_id members)).
  - intros [_ ?]%lookup_delete_Some. by eapply Hinv.
  - intros [[_ <-]|[_ ?]]%lookup_insert_Some; [|by eapply Hinv].
    apply dict_del_NoDup. by eapply Hinv.
Qed.

Lemma disconnect_records_name_room reg room_id user_id :
  records_name_room reg → records_name_room (disconnect reg room_id user_id).
Proof.
  intros Hinv user_id' record Hrec. eapply Hinv, users_disconnect_Some, Hrec.
Qed.

Lemma add_participant_rooms reg room_id user_id ws user_info :
  rooms (add_participant reg room_id user_id ws user_info) =
  <[room_id := dict_set user_id ws (room_members reg room_id)]> (rooms reg).
Proof. unfold add_participant. by destruct user_info. Qed.

Lemma add_participant_rooms_nonempty reg room_id user_id ws user_info :
  rooms_nonempty reg →
  rooms_nonempty (add_participant reg room_id user_id ws user_info).
Proof.
  intros Hinv room_id' members'. rewrite add_participant_rooms.
  intros [[_ <-]|[_ ?]]%lookup_insert_Some; [|by eapply Hinv].
  apply dict_set_nonempty.
Qed.

Lemma add_participant_room_keys_unique reg room_id user_id ws user_info :
  room_keys_unique reg →
  room_keys_unique (add_participant reg room_id user_id ws user_info).
Proof.
  intros Hinv room_id' members'. rewrite add_participant_rooms.
  intros [[_ <-]|[_ ?]]%lookup_insert_Some; [|by eapply Hinv].
  apply dict_set_NoDup. unfold room_members.
  destruct (rooms reg !! room_id) as [members|] eqn:Hroom; simpl.
  - by eapply Hinv.
  - apply NoDup_nil_2.
Qed.

Lemma add_participant_records_name_room reg room_id user_id ws user_info :
  records_name_room reg →
  records_name_room (add_participant reg room_id user_id ws user_info).
Proof.
  intros Hinv user_id' record. unfold add_participant.
  destruct user_info; simpl; try apply Hinv.
  intros [[_ <-]|[_ ?]]%lookup_insert_Some; [|by eapply Hinv].
  exists room_id. apply dict_get_set_eq.
Qed.

(** An invariant of both operations holds after every sequence of them. *)
Lemma run_ops_ind (P : Registry → Prop) :
  P empty_registry →
  (∀ reg op, P reg → P (apply_op reg op)) →
  ∀ ops, P (run_ops ops).
Proof.
  intros Hempty Hstep ops. unfold run_ops.
  induction ops as [|op ops IH] using rev_ind; [done|].
  rewrite foldl_app. by apply Hstep.
Qed.

Lemma run_ops_rooms_nonempty ops : rooms_nonempty (run_ops ops).
Proof.
  apply run_ops_ind.
  - by intros room_id members ?.
  - intros reg [room_id user_id ws user_info|room_id user_id] Hinv.
    + by apply add_participant_rooms_nonempty.
    + by apply disconnect_rooms_nonempty.
Qed.

Lemma run_ops_room_keys_unique ops : room_keys_unique (run_ops ops).
Proof.
  apply run_ops_ind.
  - by intros room_id members ?.
  - intros reg [room_id user_id ws user_info|room_id user_id] Hinv.
    + by apply add_participant_room_keys_unique.
    + by apply disconnect_room_keys_unique.
Qed.

Lemma run_ops_records_name_room ops : records_name_room (run_ops ops).
Proof.
  apply run_ops_ind.
  - by intros user_id record ?.
  - intros reg [room_id user_id ws user_info|room_id user_id] Hinv.
    + by apply add_participant_records_name_room.
    + by apply disconnect_records_name_room.
Qed.


(** Removing the last participant deletes the room. *)
Lemma disconnect_last_deletes_room reg room_id user_id ws :
  rooms reg !! room_id = Some [(user_id, ws)] →
  rooms (disconnect reg room_id user_id) !! room_id = None.
Proof.
  intros Hroom. unfold disconnect, dict_mem, dict_del; simpl. rewrite Hroom; simpl.
  rewrite decide_True by done. rewrite filter_cons; simpl.
  rewrite decide_False by (by intros ?). simpl. apply lookup_delete_eq.
Qed.

Lemma disconnect_idempotent reg room_id user_id :
  disconnect (disconnect reg room_id user_id) room_id user_id
  = disconnect reg room_id user_id.
Proof.
  pose proof (room_lookup_disconnect_same reg room_id user_id) as Hgone.
  destruct (disconnect (disconnect reg room_id user_id) room_id user_id)
    as [rooms2 users2] eqn:Hdd.
  destruct (disconnect reg room_id user_id) as [rooms1 users1] eqn:Hd.
  assert (rooms2 = rooms1) as ->.
  { change rooms2 with (rooms (mkRegistry rooms2 users2)). rewrite <- Hdd.
    by apply disconnect_rooms_absent. }
  f_equal.
  change users2 with (users (mkRegistry rooms1 users2)). rewrite <- Hdd.
  rewrite disconnect_users. simpl.
  change users1 with (users (mkRegistry rooms1 users1)). rewrite <- Hd.
  rewrite disconnect_users. apply delete_delete_eq.
Qed.

(** C1: after every sequence of joins and leaves from the empty registry, a
    room key is in the rooms map if and only if the room has at least one
    participant. *)
Theorem room_present_iff_occupied (ops : list RegistryOp) (room_id : string) :
  is_Some (rooms (run_ops ops) !! room_id)
  ↔ 0 < participant_count (run_ops ops) room_id.
Proof.
  pose proof (run_ops_rooms_nonempty ops room_id) as Hinv.
  unfold participant_count, room_members.
  destruct (rooms (run_ops ops) !! room_id) as [members|]; simpl.
  - split; [|by eauto]. intros _.
    destruct members; [by exfalso; eapply Hinv | simpl; lia].
  - split; [by intros [? ?] | lia].
Qed.

(** C6, counterexample: with "u" in room "r1", [disconnect("r2", "u")] finds
    no such member of "r2" and still deletes the record of "u" from [users]. *)
Lemma remove_absent_drops_record :
  ¬ remove_absent_is_noop (run_ops [Join "r1" "u" 1 (JObj [])]) "r2" "u".
Proof.
  intros Hnoop. specialize (Hnoop eq_refl).
  apply (f_equal (λ reg, users reg !! "u")) in Hnoop.
  vm_compute in Hnoop. discriminate Hnoop.
Qed.

(** C6, amended: [disconnect] never raises and is idempotent; for a
    participant that is not bound in the room (or a room that is absent) it
    leaves the rooms map as it is, and still deletes the participant's
    record from [users]; it is a no-op on the whole registry when the
    participant has no record either. *)
Theorem disconnect_absent (reg : Registry) (room_id user_id : string) :
  disconnect (disconnect reg room_id user_id) room_id user_id
    = disconnect reg room_id user_id
  ∧ (room_lookup reg room_id user_id = None →
       rooms (disconnect reg room_id user_id) = rooms reg
     ∧ users (disconnect reg room_id user_id) = delete user_id (users reg)
     ∧ (users reg !! user_id = None → disconnect reg room_id user_id = reg)).
Proof.
  split; [apply disconnect_idempotent|]. intros Habsent.
  pose proof (disconnect_rooms_absent _ _ _ Habsent) as Hrooms.
  pose proof (disconnect_users reg room_id user_id) as Husers.
  split_and!; [done..|]. intros Hnone.
  destruct reg as [rs us], (disconnect (mkRegistry rs us) room_id user_id) as [rs' us'].
  simpl in *. subst. by rewrite delete_id.
Qed.

(** C6 at work: "v" has neither a binding in "r2" nor a record, and removing
    it changes nothing. *)
Lemma disconnect_absent_witness :
  let reg := run_ops [Join "r1" "u" 1 (JObj [])] in
  room_lookup reg "r2" "v" = None ∧ users reg !! "v" = None
  ∧ disconnect reg "r2" "v" = reg.
Proof.
  intros reg.
  assert (room_lookup reg "r2" "v" = None) as Habsent by reflexivity.
  assert (users reg !! "v" = None) as Hnone by reflexivity.
  split_and!; [done..|].
  destruct (disconnect_absent reg "r2" "v") as [_ Hrest].
  destruct (Hrest Habsent) as (_ & _ & Hnoop). exact (Hnoop Hnone).
Defined.

(** C7, counterexample: two connections with the same participant key join
    two rooms; the join branch looks at no other room, so the key is bound
    in both. *)
Lemma same_key_in_two_rooms :
  ¬ in_at_most_one_room
      (run_ops [Join "r1" "u" 1 (JObj []); Join "r2" "u" 2 (JObj [])]) "u".
Proof.
  intros Hone. specialize (Hone "r1" "r2" eq_refl eq_refl). discriminate Hone.
Qed.

(** C7, amended: at every reachable registry state a participant key is
    bound to at most one channel within any one room, and has at most one
    record in [users], which names one room; the key itself may be bound in
    several rooms. *)
Theorem participant_key_bindings (ops : list RegistryOp) :
  (∀ room_id members,
      rooms (run_ops ops) !! room_id = Some members → NoDup (dict_keys members))
  ∧ (∀ user_id record,
      users (run_ops ops) !! user_id = Some record →
      ∃ room_id, dict_get "room_id" record = Some (JStr room_id)).
Proof.
  split; [apply run_ops_room_keys_unique | apply run_ops_records_name_room].
Qed.

(** C7 at work, after the two joins of the counterexample. *)
Lemma participant_key_bindings_witness :
  let ops := [Join "r1" "u" 1 (JObj []); Join "r2" "u" 2 (JObj [])] in
  NoDup (dict_keys [("u", 1)])
  ∧ ∃ room_id, dict_get "room_id" [("room_id", JStr "r2")] = Some (JStr room_id).
Proof.
  intros ops. destruct (participant_key_bindings ops) as [Hkeys Hrecords]. split.
  - apply (Hkeys "r1"). reflexivity.
  - apply (Hrecords "u"). reflexivity.
Defined.

(** ** The participant listing *)

Lemma omap_filter_fmap {A B} (f : A → option B) (g : A → B)
    (P : A → Prop) `{!∀ x, Decision (P x)} (l : list A) :
  (∀ x, match f x with Some y => P x ∧ g x = y | None => ¬ P x end) →
  omap f l = g <$> filter P l.
Proof.
  intros Hfg. induction l as [|x l IH]; [done|].
  rewrite filter_cons. cbn [omap list_omap]. fold (omap f l).
  specialize (Hfg x). destruct (f x) as [y|].
  - destruct Hfg as [HP <-]. rewrite decide_True by done.
    by rewrite fmap_cons, IH.
  - by rewrite decide_False.
Qed.

(** The loop of [get_room_participants] as a filter and a map: one entry
    for each key of the room that has a record, in the order of the room. *)
Lemma listing_is_members_with_record (reg : Registry) (room_id : string) :
  get_room_participants reg room_id =
  (λ user_id, participant_entry user_id (default [] (users reg !! user_id))) <$>
    filter (λ user_id, is_Some (users reg !! user_id))
           (dict_keys (room_members reg room_id)).
Proof.
  unfold get_room_participants, room_members.
  destruct (rooms reg !! room_id) as [members|]; simpl; [|done].
  apply (omap_filter_fmap
           (λ user_id, participant_entry user_id <$> users reg !! user_id)).
  intros user_id. destruct (users reg !! user_id); simpl; [by eauto|].
  by intros [? ?].
Qed.

(** A member whose record was deleted through another room: "u" and "v"
    join "r1", a handler for the path ("r2", "u") closes; "u" stays bound in
    "r1" and is no longer listed. *)
Example listing_skips_member_without_record :
  let reg := run_ops [Join "r1" "u" 1 (JObj []); Join "r1" "v" 2 (JObj []);
                      Leave "r2" "u"] in
  dict_keys (room_members reg "r1") = ["u"; "v"]
  ∧ get_room_participants reg "r1" = [[("user_id", JStr "v"); ("room_id", JStr "r1")]].
Proof. split; reflexivity. Qed.

(** The entry of a participant: the record's fields, and a ["user_id"] field
    that is the participant key unless the record has its own. *)
Lemma participant_entry_get user_id record k :
  NoDup (dict_keys record) →
  dict_get k (participant_entry user_id record) =
  match dict_get k record with
  | Some v => Some v
  | None => if decide (k = "user_id") then Some (JStr user_id) else None
  end.
Proof.
  intros Hnd. unfold participant_entry. rewrite dict_get_merge by done.
  destruct (dict_get k record); [done|]. simpl. by case_decide.
Qed.

Lemma add_participant_users reg room_id user_id ws info :
  users (add_participant reg room_id user_id ws (JObj info))
  = <[user_id := dict_set "room_id" (JStr room_id) info]> (users reg).
Proof. done. Qed.

(** After a join the joiner is listed in its room. *)
Lemma add_participant_listed reg room_id user_id ws info :
  participant_entry user_id (dict_set "room_id" (JStr room_id) info)
  ∈ get_room_participants (add_participant reg room_id user_id ws (JObj info)) room_id.
Proof.
  unfold get_room_participants.
  rewrite add_participant_rooms, lookup_insert_eq.
  apply list_elem_of_omap. exists user_id. split.
  - apply (dict_get_Some_key user_id ws), dict_get_set_eq.
  - by rewrite add_participant_users, lookup_insert_eq.
Qed.


(** C10, counterexample: "A" joins with a metadata bag that has a "user_id"
    field of its own; [{"user_id": user_id, **users[user_id]}] lets the bag
    win, and no entry of the listing carries the key "A". *)
Lemma listing_entry_takes_bag_user_id :
  ¬ listing_names_joiner empty_registry "r1" "A" 1 [("user_id", JStr "X")].
Proof.
  intros (entry & Hin & Hkey).
  change (entry ∈ [[("user_id", JStr "X"); ("room_id", JStr "r1")]]) in Hin.
  apply list_elem_of_singleton in Hin. subst entry. discriminate Hkey.
Qed.

(** C10, amended: a join stores, under the participant key and in place of
    any earlier record, the caller's bag with "room_id" set to the joined
    room (over any "room_id" of the bag); the joiner's entry in the listing
    has that "room_id", every other field of the bag, and a "user_id" that
    is the participant key unless the bag has a "user_id" of its own, which
    then is the one listed. *)
Theorem join_stores_bag_with_room (reg : Registry) (room_id user_id : string)
    (ws : WebSocket) (info : dict json) :
  NoDup (dict_keys info) →
  let reg' := add_participant reg room_id user_id ws (JObj info) in
  let record := dict_set "room_id" (JStr room_id) info in
  let entry := participant_entry user_id record in
  users reg' !! user_id = Some record
  ∧ dict_get "room_id" record = Some (JStr room_id)
  ∧ (∀ k, k ≠ "room_id" → dict_get k record = dict_get k info)
  ∧ entry ∈ get_room_participants reg' room_id
  ∧ dict_get "room_id" entry = Some (JStr room_id)
  ∧ dict_get "user_id" entry = Some (default (JStr user_id) (dict_get "user_id" info))
  ∧ (∀ k, k ≠ "room_id" → k ≠ "user_id" → dict_get k entry = dict_get k info).
Proof.
  intros Hnd reg' record entry.
  assert (NoDup (dict_keys record)) as Hnd' by by apply dict_set_NoDup.
  assert (∀ k, k ≠ "room_id" → dict_get k record = dict_get k info) as Hother.
  { intros k Hk. by apply dict_get_set_ne. }
  assert (dict_get "room_id" record = Some (JStr room_id)) as Hroom
    by apply dict_get_set_eq.
  split_and!; try done.
  - unfold reg'. by rewrite add_participant_users, lookup_insert_eq.
  - apply add_participant_listed.
  - unfold entry. rewrite participant_entry_get by done. by rewrite Hroom.
  - unfold entry. rewrite participant_entry_get by done.
    rewrite Hother by done. by destruct (dict_get "user_id" info).
  - intros k Hk1 Hk2. unfold entry. rewrite participant_entry_get by done.
    rewrite Hother by done. destruct (dict_get k info); [done|].
    by rewrite decide_False.
Qed.

(** C10 at work: a bag with a "room_id" of its own and no "user_id". *)
Lemma join_stores_bag_with_room_witness :
  let info := [("first_name", JStr "Ann"); ("room_id", JStr "other")] in
  let reg' := add_participant empty_registry "r1" "A" 1 (JObj info) in
  NoDup (dict_keys info)
  ∧ users reg' !! "A" = Some [("first_name", JStr "Ann"); ("room_id", JStr "r1")]
  ∧ dict_get "user_id"
      (participant_entry "A" [("first_name", JStr "Ann"); ("room_id", JStr "r1")])
    = Some (JStr "A").
Proof.
  intros info reg'.
  assert (NoDup (dict_keys info)) as Hnd.
  { apply (bool_decide_unpack _). reflexivity. }
  destruct (join_stores_bag_with_room empty_registry "r1" "A" 1 info Hnd)
    as (Hrecord & _ & _ & _ & _ & Hkey & _).
  split_and!; [exact Hnd | exact Hrecord | exact Hkey].
Defined.

(** C9, counterexample: "A" and "B" join "r1", each with a "user_id" field
    "X" in its metadata.  Both keys have a record, and the listing returns
    "X" twice: neither "A" nor "B". *)
Lemma listing_lists_bag_user_ids :
  ¬ listing_returns_member_ids
      (run_ops [Join "r1" "A" 1 (JObj [("user_id", JStr "X")]);
                Join "r1" "B" 2 (JObj [("user_id", JStr "X")])]) "r1".
Proof.
  unfold listing_returns_member_ids. intros Hlisting.
  assert (Some (JStr "X") = Some (JStr "A")) as Hhead; [|discriminate Hhead].
  exact (f_equal (λ l, default None (head l)) Hlisting).
Qed.

(** C9, amended: the listing of a room has exactly one entry for each key
    of the room's connection map that has a record in [users], in the order
    of the connection map; a member without a record contributes nothing
    and the call does not fail.  The entry of a key has the fields of its
    record and a "user_id", which is the key unless the record has a
    "user_id" of its own: that value is then the one listed. *)
Theorem listing_entries_of_recorded_members (reg : Registry) (room_id : string) :
  (∀ user_id record,
      users reg !! user_id = Some record → NoDup (dict_keys record)) →
  Forall2
    (λ user_id entry,
       ∃ record,
         users reg !! user_id = Some record
         ∧ dict_get "user_id" entry
           = Some (default (JStr user_id) (dict_get "user_id" record))
         ∧ ∀ k, k ≠ "user_id" → dict_get k entry = dict_get k record)
    (filter (λ user_id, is_Some (users reg !! user_id))
            (dict_keys (room_members reg room_id)))
    (get_room_participants reg room_id).
Proof.
  intros Hrecords. rewrite listing_is_members_with_record.
  apply Forall2_fmap_r, Forall_Forall2_diag, Forall_forall.
  intros user_id [[record Hrecord] _]%list_elem_of_filter.
  exists record. rewrite Hrecord. cbv [default from_option id].
  pose proof (Hrecords _ _ Hrecord) as Hnd. split_and!; [done| |].
  - rewrite participant_entry_get by done.
    destruct (dict_get "user_id" record); [done|]. by rewrite decide_True.
  - intros k Hk. rewrite participant_entry_get by done.
    destruct (dict_get k record); [done|]. by rewrite decide_False.
Qed.

(** C9 at work, on the example of the claim: "u" and "v" join "r1", then a
    handler for the path ("r2", "u") closes and takes the record of "u"
    with it; "u" stays bound in "r1" and only "v" is listed. *)
Lemma listing_entries_of_recorded_members_witness :
  let reg := run_ops [Join "r1" "u" 1 (JObj []); Join "r1" "v" 2 (JObj []);
                      Leave "r2" "u"] in
  dict_keys (room_members reg "r1") = ["u"; "v"]
  ∧ Forall2
      (λ user_id entry,
         ∃ record,
           users reg !! user_id = Some record
           ∧ dict_get "user_id" entry
             = Some (default (JStr user_id) (dict_get "user_id" record))
           ∧ ∀ k, k ≠ "user_id" → dict_get k entry = dict_get k record)
      ["v"] (get_room_participants reg "r1").
Proof.
  intros reg. split; [reflexivity|].
  assert (users reg = {["v" := [("room_id", JStr "r1")]]}) as Husers
    by reflexivity.
  apply (listing_entries_of_recorded_members reg "r1").
  intros user_id record. rewrite Husers.
  intros [_ <-]%lookup_singleton_Some.
  apply (bool_decide_unpack _). reflexivity.
Defined.



Lemma json_is_str_true value s : json_is_str value s = true ↔ value = JStr s.
Proof.
  destruct value; simpl; try (split; [discriminate | congruence]).
  rewrite bool_decide_eq_true. split; congruence.
Qed.

(** ** The clean-up after a broadcast *)

Lemma room_lookup_disconnect_all reg room_id failed room_id' user_id' :
  room_lookup (disconnect_all reg room_id failed) room_id' user_id' =
  if decide (room_id = room_id' ∧ user_id' ∈ failed) then None
  else room_lookup reg room_id' user_id'.
Proof.
  unfold disconnect_all. revert reg.
  induction failed as [|user_id failed IH]; intros reg; cbn [foldl].
  - rewrite decide_False; [done|]. intros [_ Hin]. by apply not_elem_of_nil in Hin.
  - rewrite IH, room_lookup_disconnect.
    destruct (decide (room_id = room_id' ∧ user_id' ∈ failed)) as [[? ?]|Hrest].
    + rewrite decide_True; [done|]. split; [done|]. by apply list_elem_of_further.
    + destruct (decide (room_id = room_id' ∧ user_id = user_id')) as [[? ?]|Hhead].
      * subst. rewrite decide_True; [done|]. split; [done|]. apply list_elem_of_here.
      * rewrite decide_False; [done|]. intros [? Hin].
        apply elem_of_cons in Hin as [->|?]; tauto.
Qed.

Lemma users_disconnect_all reg room_id failed user_id' :
  users (disconnect_all reg room_id failed) !! user_id' =
  if decide (user_id' ∈ failed) then None else users reg !! user_id'.
Proof.
  unfold disconnect_all. revert reg.
  induction failed as [|user_id failed IH]; intros reg; cbn [foldl].
  - rewrite decide_False; [done|]. apply not_elem_of_nil.
  - rewrite IH, disconnect_users, lookup_delete.
    destruct (decide (user_id' ∈ failed)) as [?|Hrest].
    + rewrite decide_True; [done|]. by apply list_elem_of_further.
    + destruct (decide (user_id = user_id')) as [->|Hhead].
      * rewrite decide_True; [done|]. apply list_elem_of_here.
      * rewrite decide_False; [done|].
        intros Hin. apply elem_of_cons in Hin as [->|?]; tauto.
Qed.

Lemma disconnect_all_rooms_nonempty reg room_id failed :
  rooms_nonempty reg → rooms_nonempty (disconnect_all reg room_id failed).
Proof.
  unfold disconnect_all. revert reg.
  induction failed as [|user_id failed IH]; intros reg Hinv; simpl; [done|].
  by apply IH, disconnect_rooms_nonempty.
Qed.

(** ** Broadcast and unicast *)

Section ServerFacts.
Context {Net : Type} (transmit : Net → WebSocket → json → Net * bool).
Implicit Types (w : World Net) (message : json).

(** What the [for] loop of a broadcast does: one attempt per member other
    than the excluded one, in the order of the room, each with the
    message on the member's channel; the registry is not touched, and the
    users returned are those whose attempt failed. *)
Lemma send_each_spec members message exclude_user w :
  ∃ attempts net',
    send_each transmit members message exclude_user w
    = (Some (to_user <$> filter (λ a, delivered a = false) attempts),
       mkWorld (registry w) net' (outbox w ++ attempts)%list)
    ∧ to_user <$> attempts
      = filter (λ user_id, exclude_user ≠ Some user_id) (dict_keys members)
    ∧ Forall (λ a, payload a = message ∧ (to_user a, to_ws a) ∈ members) attempts.
Proof.
  revert w. induction members as [|[user_id ws] members IH]; intros w.
  - exists [], (network w). rewrite app_nil_r. by destruct w.
  - cbn [send_each]. unfold dict_keys. rewrite fmap_cons, filter_cons. cbn [fst].
    destruct (decide (exclude_user = Some user_id)) as [Hex|Hex].
    + destruct (IH w) as (attempts & net' & Hrun & Hkeys & Hall).
      exists attempts, net'. rewrite decide_False by (by intros ?).
      split_and!; [done..|].
      eapply Forall_impl; [exact Hall|]. intros a [? ?]. split; [done|].
      by apply list_elem_of_further.
    + rewrite decide_True by done.
      unfold bind at 1. unfold try_send.
      destruct (transmit (network w) ws message) as [net1 ok] eqn:Hsend.
      set (a := mkDelivery user_id ws message ok).
      destruct (IH (mkWorld (registry w) net1 (outbox w ++ [a])%list))
        as (attempts & net' & Hrun & Hkeys & Hall).
      exists (a :: attempts), net'. unfold bind, ret. rewrite Hrun.
      cbn [registry outbox]. rewrite <- app_assoc. cbn [app].
      rewrite filter_cons, fmap_cons. cbn [delivered a to_user].
      split_and!.
      * destruct ok.
        -- by rewrite decide_False.
        -- by rewrite decide_True.
      * f_equal. exact Hkeys.
      * apply Forall_cons. split; [split; [done|apply list_elem_of_here]|].
        eapply Forall_impl; [exact Hall|]. intros a' [? ?]. split; [done|].
        by apply list_elem_of_further.
Qed.

(** A broadcast returns normally; it makes the attempts of its loop and
    then disconnects the users whose attempt failed. *)
Lemma broadcast_to_room_run room_id message exclude_user w :
  ∃ attempts net',
    broadcast_to_room transmit room_id message exclude_user w
    = (Some tt,
       mkWorld (disconnect_all (registry w) room_id
                  (to_user <$> filter (λ a, delivered a = false) attempts))
               net' (outbox w ++ attempts)%list)
    ∧ to_user <$> attempts
      = filter (λ user_id, exclude_user ≠ Some user_id)
               (dict_keys (room_members (registry w) room_id))
    ∧ Forall (λ a, payload a = message
                   ∧ (to_user a, to_ws a) ∈ room_members (registry w) room_id)
             attempts.
Proof.
  unfold broadcast_to_room, room_members, bind at 1, get_registry.
  destruct (rooms (registry w) !! room_id) as [members|]; cbn [default].
  - destruct (send_each_spec members message exclude_user w)
      as (attempts & net' & Hrun & Hkeys & Hall).
    exists attempts, net'. unfold bind. rewrite Hrun. done.
  - exists [], (network w). rewrite app_nil_r. by destruct w.
Qed.

Section Preservation.
Variable P : Registry → Prop.
Hypothesis P_disconnect :
  ∀ reg room_id user_id, P reg → P (disconnect reg room_id user_id).

Lemma preserves_ret {A} (a : A) : preserves (Net:=Net) P (ret a).
Proof. by intros w. Qed.

Lemma preserves_raise {A} : preserves (Net:=Net) P (raise (A:=A)).
Proof. by intros w. Qed.

Lemma preserves_bind {A B} (m : M Net A) (f : A → M Net B) :
  preserves P m → (∀ a, preserves P (f a)) → preserves P (bind m f).
Proof.
  intros Hm Hf w HP. unfold bind. specialize (Hm w HP).
  destruct (m w) as [[a|] w']; [by apply Hf | done].
Qed.

Lemma preserves_receive_json ev : preserves (Net:=Net) P (receive_json ev).
Proof. destruct ev; [apply preserves_ret | apply preserves_raise]. Qed.

Lemma preserves_json_get value key dflt :
  preserves (Net:=Net) P (json_get value key dflt).
Proof. destruct value; first [apply preserves_ret | apply preserves_raise]. Qed.

Lemma P_disconnect_all reg room_id failed :
  P reg → P (disconnect_all reg room_id failed).
Proof.
  unfold disconnect_all. revert reg.
  induction failed as [|user_id failed IH]; intros reg HP; [done|].
  by apply IH, P_disconnect.
Qed.

Lemma preserves_broadcast_to_room room_id message exclude_user :
  preserves P (broadcast_to_room transmit room_id message exclude_user).
Proof.
  intros w HP.
  destruct (broadcast_to_room_run room_id message exclude_user w)
    as (attempts & net' & -> & _).
  by apply P_disconnect_all.
Qed.

Lemma preserves_send_to_user room_id target message :
  preserves P (send_to_user transmit room_id target message).
Proof.
  intros w HP. unfold send_to_user, bind, get_registry, try_send.
  destruct (rooms (registry w) !! room_id) as [members|]; [|done].
  destruct target as [| | |user_id| |]; try done.
  destruct (dict_get user_id members) as [ws|]; [|done].
  destruct (transmit (network w) ws message) as [net' [|]]; [done|].
  by apply P_disconnect.
Qed.

Lemma preserves_relay room_id user_id data kind field :
  preserves P (relay transmit room_id user_id data kind field).
Proof.
  unfold relay.
  apply preserves_bind; [apply preserves_json_get | intros target_user].
  apply preserves_bind; [apply preserves_json_get | intros value].
  apply preserves_send_to_user.
Qed.

Lemma preserves_next_message room_id user_id ev :
  preserves P (next_message transmit room_id user_id ev).
Proof.
  unfold next_message.
  apply preserves_bind; [apply preserves_receive_json | intros data].
  apply preserves_bind; [apply preserves_json_get | intros message_type].
  repeat case_match; try apply preserves_relay; try apply preserves_ret.
  apply preserves_bind; [apply preserves_json_get | intros is_speaking].
  apply preserves_broadcast_to_room.
Qed.

Lemma preserves_cleanup room_id user_id :
  preserves P (cleanup transmit room_id user_id).
Proof.
  intros w HP. unfold cleanup, bind at 1, get_registry, bind at 1, set_registry.
  apply preserves_broadcast_to_room. by apply P_disconnect.
Qed.

Lemma preserves_guarded room_id user_id (body : M Net unit) w :
  preserves P body → P (registry w) →
  P (registry (guarded transmit room_id user_id body w).2).
Proof.
  intros Hbody HP. unfold guarded. specialize (Hbody w HP).
  destruct (body w) as [[[]|] w']; [done|].
  by apply preserves_cleanup.
Qed.



(** The join branch writes the registry directly. *)
Hypothesis P_bind_channel :
  ∀ reg room_id user_id ws, P reg → P (bind_channel reg room_id user_id ws).
Hypothesis P_store_user :
  ∀ reg room_id user_id user_info reg',
    P reg → store_user reg room_id user_id user_info = Some reg' → P reg'.

Lemma preserves_first_message room_id user_id ws ev :
  preserves P (first_message transmit room_id user_id ws ev).
Proof.
  unfold first_message.
  apply preserves_bind; [apply preserves_receive_json | intros init_message].
  apply preserves_bind; [apply preserves_json_get | intros message_type].
  case_match; [|apply preserves_ret]. unfold join_branch.
  apply preserves_bind; [apply preserves_json_get | intros user_info].
  intros w HP. unfold bind at 1, get_registry, bind at 1, set_registry.
  cbn [registry network outbox].
  pose proof (P_bind_channel _ room_id user_id ws HP) as HP1.
  destruct (store_user _ room_id user_id user_info) as [reg2|] eqn:Hstore;
    [|done].
  pose proof (P_store_user _ _ _ _ _ HP1 Hstore) as HP2.
  unfold bind at 1. cbn [set_registry registry network outbox].
  unfold bind at 1, send_json, bind at 1, try_send. cbn [registry network outbox].
  destruct (transmit _ ws _) as [net' [|]]; [|done].
  by apply preserves_broadcast_to_room.
Qed.

Lemma preserves_handler_step room_id user_id ws phase ev w :
  P (registry w) →
  P (registry (handler_step transmit room_id user_id ws phase ev w).2).
Proof.
  intros HP. destruct phase; cbn [handler_step]; [| |done].
  - by apply preserves_guarded; [apply preserves_first_message|].
  - by apply preserves_guarded; [apply preserves_next_message|].
Qed.

Lemma preserves_handler_run room_id user_id ws phase evs w :
  P (registry w) →
  P (registry (handler_run transmit room_id user_id ws phase evs w).2).
Proof.
  revert phase w. induction evs as [|ev evs IH]; intros phase w HP; [done|].
  cbn [handler_run].
  pose proof (preserves_handler_step room_id user_id ws phase ev w HP) as HP'.
  destruct (handler_step transmit room_id user_id ws phase ev w) as [phase' w'].
  by apply IH.
Qed.
End Preservation.
End ServerFacts.

(** ** The manager and the handler against the specification *)

Section Claims.
Context {Net : Type} (transmit : Net → WebSocket → json → Net * bool).
Implicit Types (w : World Net) (message : json).

(** A broadcast during which no other task is scheduled returns normally
    after exactly one delivery attempt, with the message, on the channel of
    every member of the room other than the excluded one; a failed attempt
    does not stop the later ones; every user whose attempt failed is, when
    the call returns, bound neither in the room nor in [users]; removing
    them sends nothing. *)
Lemma broadcast_uninterrupted room_id message exclude_user w :
  let result := broadcast_to_room transmit room_id message exclude_user w in
  result.1 = Some tt
  ∧ ∃ attempts,
      outbox result.2 = (outbox w ++ attempts)%list
      ∧ to_user <$> attempts
        = filter (λ user_id, exclude_user ≠ Some user_id)
                 (dict_keys (room_members (registry w) room_id))
      ∧ Forall (λ a, payload a = message
                     ∧ (to_user a, to_ws a) ∈ room_members (registry w) room_id)
               attempts
      ∧ Forall (λ a, delivered a = false →
                     room_lookup (registry result.2) room_id (to_user a) = None
                     ∧ users (registry result.2) !! to_user a = None)
               attempts
      ∧ registry result.2
        = disconnect_all (registry w) room_id
            (to_user <$> filter (λ a, delivered a = false) attempts).
Proof.
  intros result. unfold result.
  destruct (broadcast_to_room_run transmit room_id message exclude_user w)
    as (attempts & net' & -> & Hkeys & Hall).
  split; [done|]. exists attempts. cbn [snd outbox registry].
  split_and!; [done..| |done].
  apply Forall_forall. intros a Hin Hfailed.
  assert (to_user a ∈ to_user <$> filter (λ a, delivered a = false) attempts)
    as Hlisted.
  { apply list_elem_of_fmap. exists a. split; [done|].
    by apply list_elem_of_filter. }
  rewrite room_lookup_disconnect_all, users_disconnect_all.
  by rewrite !decide_True.
Qed.

(** C8: a unicast to a participant key that is not bound in the room (or
    to a room that is absent) returns normally, attempts no delivery and
    leaves the registry, the network and the outbox as they are. *)
Theorem send_to_user_absent room_id (target : string) message w :
  room_lookup (registry w) room_id target = None →
  send_to_user transmit room_id (JStr target) message w = (Some tt, w).
Proof.
  unfold room_lookup, send_to_user, bind, get_registry.
  destruct (rooms (registry w) !! room_id) as [members|]; [|done].
  cbn. by intros ->.
Qed.




Lemma filter_all {A} (P : A → Prop) `{!∀ x, Decision (P x)} (l : list A) :
  (∀ x, P x) → filter P l = l.
Proof.
  intros HP. induction l as [|x l IH]; [done|].
  rewrite filter_cons, decide_True by done. by rewrite IH.
Qed.

Lemma cleanup_unfold room_id user_id w :
  cleanup transmit room_id user_id w
  = broadcast_to_room transmit room_id (user_left_msg user_id) None
      (mkWorld (disconnect (registry w) room_id user_id) (network w) (outbox w)).
Proof. reflexivity. Qed.



End Claims.

(** ** The room invariant along a handler *)

Lemma bind_channel_rooms_nonempty reg room_id user_id ws :
  rooms_nonempty reg → rooms_nonempty (bind_channel reg room_id user_id ws).
Proof.
  intros Hinv room_id' members'. cbn [bind_channel rooms].
  intros [[_ <-]|[_ ?]]%lookup_insert_Some; [|by eapply Hinv].
  apply dict_set_nonempty.
Qed.

Lemma store_user_rooms reg room_id user_id user_info reg' :
  store_user reg room_id user_id user_info = Some reg' → rooms reg' = rooms reg.
Proof. destruct user_info; simpl; try discriminate. by intros [= <-]. Qed.

(** Whatever a connection receives, in whatever phase, its handler leaves
    no empty room in the map. *)
Lemma handler_run_rooms_nonempty {Net} (transmit : Net → WebSocket → json → Net * bool)
    room_id user_id ws phase evs (w : World Net) :
  rooms_nonempty (registry w) →
  rooms_nonempty (registry (handler_run transmit room_id user_id ws phase evs w).2).
Proof.
  apply (preserves_handler_run transmit rooms_nonempty).
  - intros. by apply disconnect_rooms_nonempty.
  - intros. by apply bind_channel_rooms_nonempty.
  - intros reg room_id' user_id' user_info reg' Hinv Hstore room_id'' members.
    rewrite (store_user_rooms _ _ _ _ _ Hstore). apply Hinv.
Qed.

(** ** The server on concrete connections *)

(** The scenario of the specification, as the code runs it: the
    [room_state] of "A" lists "A"; that of "B" lists "A" and "B", and "A" is
    told that "B" joined. *)
Example scenario_two_joins :
  outbox world_AB =
  [ mkDelivery "A" 1
      (room_state_msg [[("user_id", JStr "A"); ("room_id", JStr "r1")]]) true;
    mkDelivery "B" 2
      (room_state_msg [[("user_id", JStr "A"); ("room_id", JStr "r1")];
                       [("user_id", JStr "B"); ("room_id", JStr "r1")]]) true;
    mkDelivery "A" 1 (user_joined_msg "B" (JObj [])) true ].
Proof. vm_compute. reflexivity. Qed.

(** "A" leaves: "B" is told, and stays alone in "r1"; "B" leaves: the room
    is gone. *)
Example scenario_two_leaves :
  let after_A := (handler_run drop_dead "r1" "A" 1 Active [ReceiveFailed] world_AB).2 in
  let after_B := (handler_run drop_dead "r1" "B" 2 Active [ReceiveFailed] after_A).2 in
  outbox after_A = (outbox world_AB ++ [mkDelivery "B" 2 (user_left_msg "A") true])%list
  ∧ rooms (registry after_A) !! "r1" = Some [("B", 2)]
  ∧ rooms (registry after_B) !! "r1" = None
  ∧ outbox after_B = outbox after_A.
Proof. vm_compute. done. Qed.

(** C8 at work: a unicast to "C", who is not in "r1". *)
Lemma send_to_user_absent_witness :
  room_lookup (registry world_B) "r1" "C" = None
  ∧ send_to_user drop_dead "r1" (JStr "C") (user_left_msg "x") world_B
    = (Some tt, world_B).
Proof.
  assert (room_lookup (registry world_B) "r1" "C" = None) as Habsent
    by (vm_compute; reflexivity).
  split; [exact Habsent|].
  exact (send_to_user_absent drop_dead "r1" "C" (user_left_msg "x") world_B Habsent).
Defined.





(** The same run, message by message: the second offer is relayed to "B",
    and the closure tells "B" that "A" left. *)
Example unjoined_connection_relays_and_leaves :
  outbox (websocket_endpoint drop_dead "r1" "A" 1
            [Received (offer_msg "B" "SDP_X"); Received (offer_msg "B" "SDP_Y");
             ReceiveFailed] world_B).2
  = (outbox world_B
     ++ [mkDelivery "B" 2 (envelope "offer" "A" "offer" (JStr "SDP_Y")) true;
         mkDelivery "B" 2 (user_left_msg "A") true])%list.
Proof. vm_compute. reflexivity. Qed.

(** A channel that closes before any message: "B" is told that "A" left. *)
Example closed_before_join_broadcasts_user_left :
  websocket_endpoint drop_dead "r1" "A" 1 [ReceiveFailed] world_B
  = (Closed,
     mkWorld (registry world_B) []
       (outbox world_B ++ [mkDelivery "B" 2 (user_left_msg "A") true])%list).
Proof. vm_compute. reflexivity. Qed.


(** * Further properties of the code *)

(** ** Joins and leaves on the registry *)

Lemma dict_set_absent {V} (k : string) (v : V) (d : dict V) :
  dict_get k d = None → dict_set k v d = (d ++ [(k, v)])%list.
Proof.
  induction d as [|[k' v'] d IH]; [done|]. cbn [dict_get dict_set].
  case_decide; [done|]. intros Hget. by rewrite IH.
Qed.

Lemma dict_del_set_absent {V} (k : string) (v : V) (d : dict V) :
  dict_get k d = None → dict_del k (dict_set k v d) = d.
Proof.
  intros Hget. rewrite dict_set_absent by done. unfold dict_del.
  rewrite filter_app. fold (dict_del k d). rewrite dict_del_absent by done.
  rewrite filter_cons. cbn [fst]. rewrite decide_False by (by intros ?).
  by rewrite filter_nil, app_nil_r.
Qed.

Lemma room_members_lookup reg room_id user_id :
  dict_get user_id (room_members reg room_id) = room_lookup reg room_id user_id.
Proof. unfold room_members, room_lookup. by destruct (rooms reg !! room_id). Qed.

(** A join binds its pair to its channel and touches no other binding. *)
Lemma room_lookup_add_participant reg room_id user_id ws user_info room_id' user_id' :
  room_lookup (add_participant reg room_id user_id ws user_info) room_id' user_id' =
  if decide (room_id = room_id' ∧ user_id = user_id') then Some ws
  else room_lookup reg room_id' user_id'.
Proof.
  unfold room_lookup at 1. rewrite add_participant_rooms, lookup_insert.
  destruct (decide (room_id = room_id')) as [<-|Hroom]; cbn.
  - destruct (decide (user_id = user_id')) as [<-|Huser].
    + rewrite decide_True by done. apply dict_get_set_eq.
    + rewrite decide_False by tauto. rewrite dict_get_set_ne by done.
      apply room_members_lookup.
  - by rewrite decide_False by tauto.
Qed.

(** X17: a join for a key that is already bound in the room replaces the
    channel where it stands: the keys of the room, their order and their
    number are as before, and the key is now bound to the new channel. *)
Theorem rejoin_replaces_channel_in_place reg room_id user_id ws0 ws user_info :
  room_lookup reg room_id user_id = Some ws0 →
  let reg' := add_participant reg room_id user_id ws user_info in
  dict_keys (room_members reg' room_id) = dict_keys (room_members reg room_id)
  ∧ participant_count reg' room_id = participant_count reg room_id
  ∧ room_lookup reg' room_id user_id = Some ws.
Proof.
  intros Hbound reg'.
  assert (dict_keys (room_members reg' room_id) = dict_keys (room_members reg room_id))
    as Hkeys.
  { unfold reg', room_members at 1. rewrite add_participant_rooms, lookup_insert_eq.
    cbn [default from_option id]. rewrite dict_keys_set. unfold dict_mem.
    by rewrite room_members_lookup, Hbound. }
  split_and!; [done| |].
  - unfold participant_count.
    rewrite <- (length_fmap fst (room_members reg' room_id)).
    rewrite <- (length_fmap fst (room_members reg room_id)).
    unfold dict_keys in Hkeys. by rewrite Hkeys.
  - unfold reg'. rewrite room_lookup_add_participant. by rewrite decide_True.
Qed.

(** X17 at work: "A" joins "r1" again on channel 9. *)
Lemma rejoin_replaces_channel_in_place_witness :
  let reg := run_ops [Join "r1" "A" 1 (JObj []); Join "r1" "B" 2 (JObj [])] in
  let reg' := add_participant reg "r1" "A" 9 (JObj []) in
  room_lookup reg "r1" "A" = Some 1
  ∧ dict_keys (room_members reg' "r1") = dict_keys (room_members reg "r1")
  ∧ room_lookup reg' "r1" "A" = Some 9.
Proof.
  intros reg reg'.
  assert (room_lookup reg "r1" "A" = Some 1) as Hbound by reflexivity.
  destruct (rejoin_replaces_channel_in_place reg "r1" "A" 1 9 (JObj []) Hbound)
    as (Hkeys & _ & Hnew).
  split_and!; [exact Hbound | exact Hkeys | exact Hnew].
Defined.

(** X18: joining and leaving is a round trip.  When the pair is not bound,
    the key has no record and the room is not an empty dictionary, a join
    followed by the [disconnect] of the same pair gives back the registry
    as it was, room creation included. *)
Theorem join_then_leave_restores reg room_id user_id ws info :
  room_lookup reg room_id user_id = None →
  users reg !! user_id = None →
  rooms reg !! room_id ≠ Some [] →
  disconnect (add_participant reg room_id user_id ws (JObj info)) room_id user_id
  = reg.
Proof.
  intros Hunbound Hrecord Hnonempty. destruct reg as [rs us].
  unfold disconnect, add_participant, bind_channel, room_members, room_lookup in *.
  cbn [store_user default from_option id rooms users] in *.
  rewrite !lookup_insert_eq. unfold dict_mem. rewrite dict_get_set_eq.
  rewrite (delete_insert_id us) by done. f_equal.
  destruct (rs !! room_id) as [members|] eqn:Hroom; cbn [default from_option id].
  - cbn in Hunbound. rewrite dict_del_set_absent by done.
    destruct members as [|kv members]; [done|]. cbn [dict_is_empty].
    rewrite insert_insert_eq. by apply insert_id.
  - cbn [dict_set]. unfold dict_del. rewrite filter_cons. cbn [fst].
    rewrite decide_False by (by intros ?). rewrite filter_nil. cbn [dict_is_empty].
    by apply delete_insert_id.
Qed.

(** X18 at work: "B" joins and leaves the room of "A". *)
Lemma join_then_leave_restores_witness :
  let reg := run_ops [Join "r1" "A" 1 (JObj [])] in
  disconnect (add_participant reg "r1" "B" 2 (JObj [("n", JStr "b")])) "r1" "B" = reg.
Proof.
  intros reg.
  apply (join_then_leave_restores reg "r1" "B" 2 [("n", JStr "b")]);
    [reflexivity | reflexivity | by intros [=]].
Defined.

(** X19: after every sequence of joins and leaves, a key that has a record
    in [users] is bound in the room its record names: [disconnect] is the
    only code that unbinds a key, and it deletes the record of that key. *)
Theorem record_names_bound_room (ops : list RegistryOp) user_id record :
  users (run_ops ops) !! user_id = Some record →
  ∃ room_id ws,
    dict_get "room_id" record = Some (JStr room_id)
    ∧ room_lookup (run_ops ops) room_id user_id = Some ws.
Proof.
  revert user_id record.
  apply (run_ops_ind (λ reg, ∀ user_id record,
    users reg !! user_id = Some record →
    ∃ room_id ws, dict_get "room_id" record = Some (JStr room_id)
                  ∧ room_lookup reg room_id user_id = Some ws)).
  - by intros user_id record ?.
  - intros reg [room_id user_id ws user_info|room_id user_id] Hinv user_id' record;
      cbn [apply_op].
    + intros Hrecord.
      assert ((∃ info, user_info = JObj info ∧ user_id = user_id'
                       ∧ record = dict_set "room_id" (JStr room_id) info)
              ∨ users reg !! user_id' = Some record) as [Hnew|Hold].
      { unfold add_participant in Hrecord.
        destruct user_info; cbn in Hrecord; try (by right).
        apply lookup_insert_Some in Hrecord as [[<- <-]|[_ ?]]; [|by right].
        left. by eexists. }
      * destruct Hnew as (info & -> & <- & ->). exists room_id, ws. split.
        -- apply dict_get_set_eq.
        -- rewrite room_lookup_add_participant. by rewrite decide_True.
      * destruct (Hinv _ _ Hold) as (room_id' & ws' & Hnames & Hbound).
        destruct (decide (room_id = room_id' ∧ user_id = user_id')) as [Hsame|Hdiff].
        -- exists room_id', ws. split; [done|].
           rewrite room_lookup_add_participant. by rewrite decide_True.
        -- exists room_id', ws'. split; [done|].
           rewrite room_lookup_add_participant. by rewrite decide_False.
    + rewrite disconnect_users. intros [Hne Hrecord]%lookup_delete_Some.
      destruct (Hinv _ _ Hrecord) as (room_id' & ws' & Hnames & Hbound).
      exists room_id', ws'. split; [done|].
      rewrite room_lookup_disconnect. rewrite decide_False; [done|]. tauto.
Qed.

(** X19 at work, after a join, a second join elsewhere and a leave of a
    third party. *)
Lemma record_names_bound_room_witness :
  ∃ room_id ws,
    dict_get "room_id" [("room_id", JStr "r2")] = Some (JStr room_id)
    ∧ room_lookup
        (run_ops [Join "r1" "u" 1 (JObj []); Join "r2" "u" 2 (JObj []);
                  Leave "r1" "v"]) room_id "u" = Some ws.
Proof.
  apply (record_names_bound_room
           [Join "r1" "u" 1 (JObj []); Join "r2" "u" 2 (JObj []); Leave "r1" "v"]
           "u" [("room_id", JStr "r2")]).
  reflexivity.
Defined.

(** ** The listing across rooms and the read endpoint *)

(** X15: the listing shows the latest join of a key, whatever the room
    listed.  When a key bound in a room joins (the same or another room),
    the listing of the first room has the key's entry with the metadata of
    the new join, its "room_id" being the room joined last. *)
Theorem listing_shows_latest_join reg room_id user_id ws0 room_id' ws info :
  room_lookup reg room_id user_id = Some ws0 →
  participant_entry user_id (dict_set "room_id" (JStr room_id') info)
  ∈ get_room_participants
      (add_participant reg room_id' user_id ws (JObj info)) room_id.
Proof.
  intros Hbound.
  assert (is_Some (room_lookup (add_participant reg room_id' user_id ws (JObj info))
                     room_id user_id)) as [ws' Hbound'].
  { rewrite room_lookup_add_participant. case_decide; by eauto. }
  unfold room_lookup in Hbound'. unfold get_room_participants.
  destruct (rooms (add_participant reg room_id' user_id ws (JObj info)) !! room_id)
    as [members|]; [|done].
  cbn in Hbound'. apply list_elem_of_omap. exists user_id. split.
  - by eapply dict_get_Some_key.
  - by rewrite add_participant_users, lookup_insert_eq.
Qed.

(** X15 at work: "u" is in "r1" and joins "r2". *)
Lemma listing_shows_latest_join_witness :
  let reg := run_ops [Join "r1" "u" 1 (JObj [])] in
  room_lookup reg "r1" "u" = Some 1
  ∧ [("user_id", JStr "u"); ("room_id", JStr "r2")]
    ∈ get_room_participants (add_participant reg "r2" "u" 2 (JObj [])) "r1".
Proof.
  intros reg.
  assert (room_lookup reg "r1" "u" = Some 1) as Hbound by reflexivity.
  split; [exact Hbound|].
  exact (listing_shows_latest_join reg "r1" "u" 1 "r2" 2 [] Hbound).
Defined.

(** X16: the answer of the participants endpoint counts the entries it
    lists, which are the bound keys that have a record: the count is at
    most the number of channels bound in the room, and an absent room is
    answered with an empty list and a count of zero. *)
Theorem room_participants_response_count reg room_id :
  let n := length (get_room_participants reg room_id) in
  py_getitem (room_participants_response reg room_id) "count"
    = Some (JNum (Z.of_nat n))
  ∧ n = length (filter (λ user_id, is_Some (users reg !! user_id))
                       (dict_keys (room_members reg room_id)))
  ∧ (n ≤ participant_count reg room_id)%nat
  ∧ (rooms reg !! room_id = None →
     room_participants_response reg room_id
     = JObj [("room_id", JStr room_id); ("participants", JList []);
             ("count", JNum 0)]).
Proof.
  intros n.
  assert (n = length (filter (λ user_id, is_Some (users reg !! user_id))
                             (dict_keys (room_members reg room_id)))) as Hn.
  { unfold n, get_room_participants, room_members.
    destruct (rooms reg !! room_id) as [members|]; [|done]. cbn [default from_option id].
    rewrite (omap_filter_fmap _
               (λ user_id, participant_entry user_id (default [] (users reg !! user_id)))
               (λ user_id, is_Some (users reg !! user_id))).
    - by rewrite length_fmap.
    - intros user_id. destruct (users reg !! user_id); simpl; [by eauto|].
      by intros [? ?]. }
  split_and!; [done|done| |].
  - rewrite Hn. unfold participant_count, dict_keys.
    etrans; [apply length_filter|]. by rewrite length_fmap.
  - intros Habsent. unfold room_participants_response, get_room_participants.
    by rewrite Habsent.
Qed.

(** X16 at work: a room that does not exist. *)
Lemma room_participants_response_count_witness :
  room_participants_response empty_registry "r9"
  = JObj [("room_id", JStr "r9"); ("participants", JList []); ("count", JNum 0)].
Proof.
  destruct (room_participants_response_count empty_registry "r9") as (_ & _ & _ & Habsent).
  exact (Habsent eq_refl).
Defined.

(** ** Unicast and broadcast: what a failed delivery changes *)

Section ManagerFacts.
Context {Net : Type} (transmit : Net → WebSocket → json → Net * bool).
Implicit Types (w : World Net) (message : json).

(** X1: a unicast to a bound target returns normally whatever the delivery
    does.  When the send goes through the registry is as before; when it
    raises, the target is disconnected: it is no longer bound in the room
    and has no record. *)
Theorem send_to_user_outcome room_id target ws_target message w :
  room_lookup (registry w) room_id target = Some ws_target →
  let result := send_to_user transmit room_id (JStr target) message w in
  let ok := (transmit (network w) ws_target message).2 in
  result.1 = Some tt
  ∧ registry result.2
    = (if ok then registry w else disconnect (registry w) room_id target)
  ∧ (ok = false →
     room_lookup (registry result.2) room_id target = None
     ∧ users (registry result.2) !! target = None).
Proof.
  intros Hbound result ok.
  assert (result.1 = Some tt
          ∧ registry result.2
            = (if ok then registry w else disconnect (registry w) room_id target))
    as [Hreturns Hregistry].
  { unfold result, ok, send_to_user, bind, get_registry, try_send.
    unfold room_lookup in Hbound.
    destruct (rooms (registry w) !! room_id) as [members|]; [|done].
    cbn in Hbound. rewrite Hbound.
    by destruct (transmit (network w) ws_target message) as [net' [|]]. }
  split_and!; [done..|]. intros Hfailed. rewrite Hregistry, Hfailed.
  split; [apply room_lookup_disconnect_same|].
  rewrite disconnect_users. apply lookup_delete_eq.
Qed.

Lemma broadcast_to_room_absent room_id message exclude_user w :
  rooms (registry w) !! room_id = None →
  broadcast_to_room transmit room_id message exclude_user w = (Some tt, w).
Proof. intros Habsent. unfold broadcast_to_room, bind, get_registry. by rewrite Habsent. Qed.

(** X2: a broadcast disconnects the users whose delivery failed and
    nobody else.  A broadcast to a room that is not in the map does
    nothing; otherwise every binding in another room, and the binding and
    the record of every user whose delivery did not fail, are as before;
    when no delivery fails the registry is unchanged. *)
Theorem broadcast_keeps_served room_id message exclude_user w :
  let result := broadcast_to_room transmit room_id message exclude_user w in
  (rooms (registry w) !! room_id = None → result = (Some tt, w))
  ∧ ∃ attempts,
      outbox result.2 = (outbox w ++ attempts)%list
      ∧ let failed := to_user <$> filter (λ a, delivered a = false) attempts in
        (∀ room_id' user_id,
            room_id' ≠ room_id ∨ user_id ∉ failed →
            room_lookup (registry result.2) room_id' user_id
            = room_lookup (registry w) room_id' user_id)
        ∧ (∀ user_id,
            user_id ∉ failed →
            users (registry result.2) !! user_id = users (registry w) !! user_id)
        ∧ (failed = [] → registry result.2 = registry w).
Proof.
  intros result. split; [apply broadcast_to_room_absent|]. unfold result.
  destruct (broadcast_to_room_run transmit room_id message exclude_user w)
    as (attempts & net' & -> & _).
  exists attempts. cbn [snd outbox registry]. split_and!; [done| | |].
  - intros room_id' user_id Hkept. rewrite room_lookup_disconnect_all.
    rewrite decide_False; [done|]. intros [-> ?]. by destruct Hkept.
  - intros user_id Hkept. rewrite users_disconnect_all. by rewrite decide_False.
  - by intros ->.
Qed.
End ManagerFacts.

(** X1 at work: "A" is bound on channel 1, whose peer is gone. *)
Lemma send_to_user_outcome_witness :
  let w := world_ABC_A_gone in
  let result := send_to_user drop_dead "r1" (JStr "A") (user_left_msg "x") w in
  room_lookup (registry w) "r1" "A" = Some 1
  ∧ result.1 = Some tt
  ∧ room_lookup (registry result.2) "r1" "A" = None
  ∧ users (registry result.2) !! "A" = None.
Proof.
  intros w result.
  assert (room_lookup (registry w) "r1" "A" = Some 1) as Hbound by reflexivity.
  destruct (send_to_user_outcome drop_dead "r1" "A" 1 (user_left_msg "x") w Hbound)
    as (Hreturns & _ & Hfailed).
  destruct (Hfailed eq_refl) as [Hunbound Hrecord].
  split_and!; [exact Hbound | exact Hreturns | exact Hunbound | exact Hrecord].
Defined.

(** X2 at work: a broadcast to a room that does not exist. *)
Lemma broadcast_keeps_served_witness :
  broadcast_to_room drop_dead "r9" (user_left_msg "x") None world_B
  = (Some tt, world_B).
Proof.
  destruct (broadcast_keeps_served drop_dead "r9" (user_left_msg "x") None world_B)
    as [Habsent _].
  apply Habsent. vm_compute. reflexivity.
Defined.

(** ** The loop of the handler, branch by branch *)

Section LoopFacts.
Context {Net : Type} (transmit : Net → WebSocket → json → Net * bool).
Implicit Types (w : World Net) (message : json).

Lemma json_is_str_other fields kind :
  dict_get "type" fields ≠ Some (JStr kind) →
  json_is_str (default JNull (dict_get "type" fields)) kind = false.
Proof.
  intros Hne. destruct (json_is_str _ kind) eqn:His; [|done].
  apply json_is_str_true in His.
  destruct (dict_get "type" fields); cbn in His; congruence.
Qed.

(** The three relaying branches: one call of [send_to_user], guarded by the
    [try] of the endpoint. *)
Lemma relay_step room_id sender ws fields kind field w :
  (kind, field) ∈ relayed_kinds →
  dict_get "type" fields = Some (JStr kind) →
  handler_step transmit room_id sender ws Active (Received (JObj fields)) w
  = guarded transmit room_id sender
      (send_to_user transmit room_id
         (default JNull (dict_get "target_user_id" fields))
         (envelope kind sender field (default JNull (dict_get field fields))))
      w.
Proof.
  intros Hkind Htype. cbn [handler_step]. unfold guarded, next_message.
  unfold bind at 1. cbn [receive_json ret].
  unfold bind at 1. cbn [json_get ret]. rewrite Htype.
  cbv [default from_option id].
  unfold relayed_kinds in Hkind.
  repeat (apply elem_of_cons in Hkind as [Hkind|Hkind];
          [injection Hkind as -> ->|]);
    [| | |by apply elem_of_nil in Hkind].
  all: eval_json_is_str; reflexivity.
Qed.

(** The [finally] block, whatever world it starts from: the pair of the
    handler is unbound and has no record, and what is sent is a
    [user_left] on every channel still bound in the room. *)
Lemma cleanup_effect room_id user_id w :
  let w' := (cleanup transmit room_id user_id w).2 in
  room_lookup (registry w') room_id user_id = None
  ∧ users (registry w') !! user_id = None
  ∧ ∃ attempts,
      outbox w' = (outbox w ++ attempts)%list
      ∧ to_user <$> attempts
        = dict_keys (room_members (disconnect (registry w) room_id user_id) room_id)
      ∧ (user_id ∉ to_user <$> attempts)
      ∧ Forall (λ a, payload a = user_left_msg user_id) attempts.
Proof.
  intros w'. unfold w'. rewrite cleanup_unfold.
  destruct (broadcast_to_room_run transmit room_id (user_left_msg user_id) None
              (mkWorld (disconnect (registry w) room_id user_id)
                       (network w) (outbox w)))
    as (attempts & net' & -> & Hkeys & Hall).
  rewrite filter_all in Hkeys by done. cbn [snd registry outbox] in *.
  split_and!.
  - rewrite room_lookup_disconnect_all. case_decide; [done|].
    apply room_lookup_disconnect_same.
  - rewrite users_disconnect_all. case_decide; [done|].
    rewrite disconnect_users. apply lookup_delete_eq.
  - exists attempts. split_and!; [done..| |].
    + rewrite Hkeys. apply dict_get_None. rewrite room_members_lookup.
      apply room_lookup_disconnect_same.
    + eapply Forall_impl; [exact Hall|]. by intros a [? _].
Qed.


(** X4: a message whose type is none of [offer], [answer],
    [ice_candidate] and [speaking] (a missing type, a type that is not a
    string, a second [join]) is dropped: the handler stays in its loop and
    the world is as before. *)
Theorem unknown_type_is_ignored room_id user_id ws fields w :
  (∀ kind, kind ∈ dispatched_types → dict_get "type" fields ≠ Some (JStr kind)) →
  handler_step transmit room_id user_id ws Active (Received (JObj fields)) w
  = (Active, w).
Proof.
  intros Hother. cbn [handler_step]. unfold guarded, next_message.
  unfold bind at 1. cbn [receive_json ret].
  unfold bind at 1. cbn [json_get ret].
  rewrite !json_is_str_other; [done|apply Hother; unfold dispatched_types..].
  - do 3 apply list_elem_of_further. apply list_elem_of_here.
  - do 2 apply list_elem_of_further. apply list_elem_of_here.
  - apply list_elem_of_further, list_elem_of_here.
  - apply list_elem_of_here.
Qed.

(** X5: a message that decodes to anything but an object (an array, a
    string, a number, [null]) ends the connection exactly as a lost channel
    does: [data.get] raises and the handler runs its [finally] block. *)
Theorem non_object_message_closes room_id user_id ws value w :
  (∀ fields, value ≠ JObj fields) →
  handler_step transmit room_id user_id ws Active (Received value) w
  = handler_step transmit room_id user_id ws Active ReceiveFailed w.
Proof.
  intros Hother. destruct value; try reflexivity. by destruct (Hother fields).
Qed.


(** X7: when the only participant of a room closes, the room is deleted
    together with the participant's record, and nothing is sent. *)
Theorem last_participant_closes_room room_id user_id ws ws' w :
  rooms (registry w) !! room_id = Some [(user_id, ws')] →
  handler_step transmit room_id user_id ws Active ReceiveFailed w
  = (Closed,
     mkWorld (mkRegistry (delete room_id (rooms (registry w)))
                         (delete user_id (users (registry w))))
             (network w) (outbox w)).
Proof.
  intros Hroom.
  change (handler_step transmit room_id user_id ws Active ReceiveFailed w)
    with (Closed, (cleanup transmit room_id user_id w).2).
  rewrite cleanup_unfold.
  assert (disconnect (registry w) room_id user_id
          = mkRegistry (delete room_id (rooms (registry w)))
                       (delete user_id (users (registry w)))) as ->.
  { pose proof (disconnect_users (registry w) room_id user_id) as Husers.
    pose proof (disconnect_last_deletes_room _ _ _ _ Hroom) as Hgone.
    unfold disconnect, dict_mem, dict_del in *. rewrite Hroom in *.
    cbn [dict_get rooms users] in *. rewrite decide_True in * by done.
    rewrite filter_cons in *. cbn [fst] in *.
    rewrite decide_False in * by (by intros ?). rewrite filter_nil in *.
    cbn [dict_is_empty] in *. by rewrite Husers. }
  rewrite broadcast_to_room_absent; [done|]. apply lookup_delete_eq.
Qed.
End LoopFacts.

(** ** The target and the payload of a relayed message *)

Section RelayFacts.
Context {Net : Type} (transmit : Net → WebSocket → json → Net * bool).
Implicit Types (w : World Net) (message : json).

(** X8: a relayed message whose [target_user_id] is missing, [null], a
    boolean or a number is dropped without a trace: no delivery, no error,
    the handler stays in its loop. *)
Theorem relay_without_string_target_is_dropped room_id sender ws fields kind field w :
  (kind, field) ∈ relayed_kinds →
  dict_get "type" fields = Some (JStr kind) →
  never_a_key (default JNull (dict_get "target_user_id" fields)) = true →
  handler_step transmit room_id sender ws Active (Received (JObj fields)) w
  = (Active, w).
Proof.
  intros Hkind Htype Htarget. rewrite (relay_step transmit _ _ _ _ kind field) by done.
  unfold guarded, send_to_user, bind, get_registry.
  destruct (rooms (registry w) !! room_id) as [members|]; [|done].
  by destruct (default JNull (dict_get "target_user_id" fields)).
Qed.

(** X9: a relayed message whose [target_user_id] is an array or an object
    closes the sender's connection when the sender's room is in the map:
    the membership test raises [TypeError], which only the [try] of the
    endpoint catches.  When the room is not in the map the message is
    dropped. *)
Theorem relay_with_unhashable_target room_id sender ws fields kind field w :
  (kind, field) ∈ relayed_kinds →
  dict_get "type" fields = Some (JStr kind) →
  unhashable (default JNull (dict_get "target_user_id" fields)) = true →
  let result :=
    handler_step transmit room_id sender ws Active (Received (JObj fields)) w in
  (is_Some (rooms (registry w) !! room_id) →
   result = handler_step transmit room_id sender ws Active ReceiveFailed w)
  ∧ (rooms (registry w) !! room_id = None → result = (Active, w)).
Proof.
  intros Hkind Htype Htarget result. unfold result.
  rewrite (relay_step transmit _ _ _ _ kind field) by done.
  set (closed := handler_step transmit room_id sender ws Active ReceiveFailed w).
  unfold guarded, send_to_user, bind, get_registry. split.
  - intros [members ->].
    by destruct (default JNull (dict_get "target_user_id" fields)).
  - by intros ->.
Qed.

End RelayFacts.

(** ** The join branch, outcome by outcome *)

Section JoinFacts.
Context {Net : Type} (transmit : Net → WebSocket → json → Net * bool).
Implicit Types (w : World Net) (message : json).




(** X13: a join whose [user_info] is not an object (a string, a number,
    [null], an array) closes the connection before anything is sent to it:
    the channel is bound, the assignment of [users] raises, and the
    [finally] block unbinds the pair and deletes the record of the key,
    also when they belonged to an earlier connection of the same key. *)
Theorem join_with_bad_user_info_closes room_id user_id ws fields value w :
  dict_get "type" fields = Some (JStr "join") →
  dict_get "user_info" fields = Some value →
  (∀ info, value ≠ JObj info) →
  let result :=
    handler_step transmit room_id user_id ws Connecting (Received (JObj fields)) w in
  result
  = (Closed,
     (cleanup transmit room_id user_id
        (mkWorld (bind_channel (registry w) room_id user_id ws)
                 (network w) (outbox w))).2)
  ∧ room_lookup (registry result.2) room_id user_id = None
  ∧ users (registry result.2) !! user_id = None
  ∧ ∃ attempts,
      outbox result.2 = (outbox w ++ attempts)%list
      ∧ (user_id ∉ to_user <$> attempts)
      ∧ Forall (λ a, payload a = user_left_msg user_id) attempts.
Proof.
  intros Htype Hinfo Hbad result.
  assert (result
          = (Closed,
             (cleanup transmit room_id user_id
                (mkWorld (bind_channel (registry w) room_id user_id ws)
                         (network w) (outbox w))).2)) as Hresult.
  { unfold result. cbn [handler_step]. unfold guarded, first_message.
    unfold bind at 1. cbn [receive_json ret].
    unfold bind at 1. cbn [json_get ret]. rewrite Htype.
    change (default JNull (Some (JStr "join"))) with (JStr "join").
    eval_json_is_str.
    unfold join_branch. unfold bind at 1. cbn [json_get ret]. rewrite Hinfo.
    cbn [default from_option id].
    unfold bind at 1, get_registry. unfold bind at 1, set_registry.
    cbn [registry network outbox].
    destruct value; try done. by destruct (Hbad fields0). }
  split; [done|]. rewrite Hresult. cbn [snd].
  destruct (cleanup_effect transmit room_id user_id
              (mkWorld (bind_channel (registry w) room_id user_id ws)
                       (network w) (outbox w)))
    as (Hunbound & Hrecord & attempts & Hout & _ & Hnot & Hall).
  split_and!; [done..|]. by exists attempts.
Qed.
End JoinFacts.

(** ** Invariants along a handler, and the unused [connect] *)

Lemma bind_channel_room_keys_unique reg room_id user_id ws :
  room_keys_unique reg → room_keys_unique (bind_channel reg room_id user_id ws).
Proof.
  intros Hinv room_id' members'. cbn [bind_channel rooms].
  intros [[_ <-]|[_ ?]]%lookup_insert_Some; [|by eapply Hinv].
  apply dict_set_NoDup. unfold room_members.
  destruct (rooms reg !! room_id) as [members|] eqn:Hroom; simpl.
  - by eapply Hinv.
  - apply NoDup_nil_2.
Qed.

Section InvariantFacts.
Context {Net : Type} (transmit : Net → WebSocket → json → Net * bool).
Implicit Types (w : World Net) (message : json).

(** X14: one step of a handler, in any phase and on any inbound event,
    keeps the three invariants of the registry: no room of the map is
    empty, a key is bound at most once in a room, and every record names
    a room. *)
Theorem handler_step_keeps_invariants room_id user_id ws phase ev w :
  rooms_nonempty (registry w) →
  room_keys_unique (registry w) →
  records_name_room (registry w) →
  let reg' := registry (handler_step transmit room_id user_id ws phase ev w).2 in
  rooms_nonempty reg' ∧ room_keys_unique reg' ∧ records_name_room reg'.
Proof.
  intros Hnonempty Hunique Hrecords reg'. unfold reg'. split_and!.
  - apply (preserves_handler_step transmit rooms_nonempty); [..|done].
    + intros. by apply disconnect_rooms_nonempty.
    + intros. by apply bind_channel_rooms_nonempty.
    + intros reg r u info reg2 Hinv Hstore r' members.
      rewrite (store_user_rooms _ _ _ _ _ Hstore). apply Hinv.
  - apply (preserves_handler_step transmit room_keys_unique); [..|done].
    + intros. by apply disconnect_room_keys_unique.
    + intros. by apply bind_channel_room_keys_unique.
    + intros reg r u info reg2 Hinv Hstore r' members.
      rewrite (store_user_rooms _ _ _ _ _ Hstore). apply Hinv.
  - apply (preserves_handler_step transmit records_name_room); [..|done].
    + intros. by apply disconnect_records_name_room.
    + intros reg r u ws' Hinv. exact Hinv.
    + intros reg r u info reg2 Hinv Hstore u' record.
      destruct info; cbn in Hstore; try discriminate. injection Hstore as <-.
      cbn [users]. intros [[_ <-]|[_ ?]]%lookup_insert_Some; [|by eapply Hinv].
      exists r. apply dict_get_set_eq.
Qed.



(** X21: [ConnectionManager.connect] with metadata that is not an object
    raises after it has bound the channel: having no [finally] of its own,
    it leaves the key bound in the room, with no record written and
    nothing sent. *)
Theorem connect_with_bad_user_info_raises room_id user_id ws value w :
  (∀ info, value ≠ JObj info) →
  let result := connect transmit room_id user_id ws value w in
  result
  = (None, mkWorld (bind_channel (registry w) room_id user_id ws)
                   (network w) (outbox w))
  ∧ room_lookup (registry result.2) room_id user_id = Some ws
  ∧ users (registry result.2) = users (registry w).
Proof.
  intros Hbad result.
  assert (result
          = (None, mkWorld (bind_channel (registry w) room_id user_id ws)
                           (network w) (outbox w))) as Hresult.
  { unfold result. destruct value; try reflexivity. by destruct (Hbad fields). }
  split; [done|]. rewrite Hresult. cbn [snd registry]. split; [|done].
  unfold room_lookup. cbn [bind_channel rooms]. rewrite lookup_insert_eq. cbn.
  apply dict_get_set_eq.
Qed.
End InvariantFacts.

(** ** The branches at work on concrete connections *)

(** X4 at work: a second [join] in the loop. *)
Lemma unknown_type_is_ignored_witness :
  handler_step drop_dead "r1" "A" 1 Active (Received (join_msg [])) world_AB
  = (Active, world_AB).
Proof.
  apply (unknown_type_is_ignored drop_dead "r1" "A" 1).
  intros kind Hkind. unfold dispatched_types in Hkind.
  repeat (apply elem_of_cons in Hkind as [->|Hkind]; [by intros [=]|]).
  by apply elem_of_nil in Hkind.
Defined.

(** X5 at work: a JSON array as a message. *)
Lemma non_object_message_closes_witness :
  handler_step drop_dead "r1" "A" 1 Active (Received (JList [])) world_AB
  = handler_step drop_dead "r1" "A" 1 Active ReceiveFailed world_AB.
Proof.
  apply (non_object_message_closes drop_dead "r1" "A" 1 (JList []) world_AB).
  by intros fields [=].
Defined.

(** X7 at work: "B", alone in "r1", closes. *)
Lemma last_participant_closes_room_witness :
  rooms (registry world_B) !! "r1" = Some [("B", 2)]
  ∧ handler_step drop_dead "r1" "B" 2 Active ReceiveFailed world_B
    = (Closed,
       mkWorld (mkRegistry (delete "r1" (rooms (registry world_B)))
                           (delete "B" (users (registry world_B))))
               (network world_B) (outbox world_B)).
Proof.
  assert (rooms (registry world_B) !! "r1" = Some [("B", 2)]) as Hroom
    by (vm_compute; reflexivity).
  split; [exact Hroom|].
  exact (last_participant_closes_room drop_dead "r1" "B" 2 2 world_B Hroom).
Defined.

(** X8 at work: an offer without a target. *)
Lemma relay_without_string_target_is_dropped_witness :
  handler_step drop_dead "r1" "A" 1 Active
    (Received (JObj [("type", JStr "offer"); ("offer", JStr "SDP")])) world_AB
  = (Active, world_AB).
Proof.
  apply (relay_without_string_target_is_dropped drop_dead "r1" "A" 1 _ "offer" "offer");
    [apply list_elem_of_here | reflexivity | reflexivity].
Defined.

(** X9 at work: an offer whose target is an array, sent by "A" from "r1". *)
Lemma relay_with_unhashable_target_witness :
  let fields := [("type", JStr "offer"); ("target_user_id", JList [JStr "B"]);
                 ("offer", JStr "SDP")] in
  is_Some (rooms (registry world_AB) !! "r1")
  ∧ handler_step drop_dead "r1" "A" 1 Active (Received (JObj fields)) world_AB
    = handler_step drop_dead "r1" "A" 1 Active ReceiveFailed world_AB.
Proof.
  intros fields.
  assert (is_Some (rooms (registry world_AB) !! "r1")) as Hroom
    by (vm_compute; eauto).
  split; [exact Hroom|].
  destruct (relay_with_unhashable_target drop_dead "r1" "A" 1 fields "offer" "offer"
              world_AB (list_elem_of_here _ _) eq_refl eq_refl) as [Hcloses _].
  exact (Hcloses Hroom).
Defined.



(** X13 at work: a second connection for ("r1", "A") joins with a string as
    [user_info]; "A", bound on channel 1, is gone from the registry. *)
Lemma join_with_bad_user_info_closes_witness :
  let fields := [("type", JStr "join"); ("user_info", JStr "Ann")] in
  let result :=
    handler_step drop_dead "r1" "A" 7 Connecting (Received (JObj fields)) world_AB in
  room_lookup (registry world_AB) "r1" "A" = Some 1
  ∧ room_lookup (registry result.2) "r1" "A" = None
  ∧ users (registry result.2) !! "A" = None.
Proof.
  intros fields result.
  assert (room_lookup (registry world_AB) "r1" "A" = Some 1) as Hbefore
    by (vm_compute; reflexivity).
  destruct (join_with_bad_user_info_closes drop_dead "r1" "A" 7 fields (JStr "Ann")
              world_AB eq_refl eq_refl) as (_ & Hunbound & Hrecord & _).
  - by intros info [=].
  - split_and!; [exact Hbefore | exact Hunbound | exact Hrecord].
Defined.

(** X14 at work: a join into a reachable registry. *)
Lemma handler_step_keeps_invariants_witness :
  let w := world_ABC_A_gone in
  rooms_nonempty (registry w)
  ∧ rooms_nonempty
      (registry (handler_step drop_dead "r2" "D" 4 Connecting
                   (Received (join_msg [])) w).2).
Proof.
  intros w.
  pose proof (run_ops_rooms_nonempty
                [Join "r1" "A" 1 (JObj []); Join "r1" "B" 2 (JObj []);
                 Join "r1" "C" 3 (JObj [])]) as Hnonempty.
  pose proof (run_ops_room_keys_unique
                [Join "r1" "A" 1 (JObj []); Join "r1" "B" 2 (JObj []);
                 Join "r1" "C" 3 (JObj [])]) as Hunique.
  pose proof (run_ops_records_name_room
                [Join "r1" "A" 1 (JObj []); Join "r1" "B" 2 (JObj []);
                 Join "r1" "C" 3 (JObj [])]) as Hrecords.
  split; [exact Hnonempty|].
  destruct (handler_step_keeps_invariants drop_dead "r2" "D" 4 Connecting
              (Received (join_msg [])) w Hnonempty Hunique Hrecords) as [Hafter _].
  exact Hafter.
Defined.

(** X21 at work: [connect] with [null] as metadata. *)
Lemma connect_with_bad_user_info_raises_witness :
  let result := connect drop_dead "r1" "A" 1 JNull (fresh_world []) in
  result.1 = None
  ∧ room_lookup (registry result.2) "r1" "A" = Some 1
  ∧ users (registry result.2) = ∅.
Proof.
  intros result.
  destruct (connect_with_bad_user_info_raises drop_dead "r1" "A" 1 JNull
              (fresh_world [])) as (Hresult & Hbound & Husers).
  - by intros info [=].
  - fold result in Hresult, Hbound, Husers.
    split_and!; [by rewrite Hresult | exact Hbound | exact Husers].
Defined.

(** ** The ICE configuration *)

Lemma replace_from_no_match old new s :
  str_contains old s = false → replace_from old new 0 s = s.
Proof.
  induction s as [|c s IH]; [done|]. cbn [str_contains replace_from].
  intros [Hhead Htail]%orb_false_elim. rewrite Hhead. by rewrite IH.
Qed.

Lemma str_replace_skips_head old new head rest :
  no_match_within old head rest = true →
  str_replace old new (head ++ rest) = head ++ str_replace old new rest.
Proof.
  unfold str_replace. induction head as [|c head IH]; [done|].
  cbn [no_match_within]. intros [Hhead Htail]%andb_prop.
  apply negb_true_iff in Hhead.
  change (String c head +:+ rest) with (String c (head +:+ rest)) in *.
  cbn [replace_from]. rewrite Hhead. by rewrite IH.
Qed.

(** X22: the ICE configuration always starts with the two Google STUN
    servers.  Unless both [TURN_USERNAME] and [TURN_PASSWORD] are set and
    not empty, [TURN_URL] is ignored and the answer is the STUN-only one,
    with no credential in it; when both are, there are three TURN entries
    after the two STUN servers, each with that username and password. *)
Theorem ice_servers_shape turn_url username password :
  let servers := ice_servers turn_url username password in
  take 2 servers = [stun_server "stun:stun.l.google.com:19302";
                    stun_server "stun:stun1.l.google.com:19302"]
  ∧ (str_truthy username && str_truthy password = false →
     get_ice_config turn_url username password = get_ice_config None None None
     ∧ Forall (λ server, dict_get "username" server = None
                         ∧ dict_get "credential" server = None) servers)
  ∧ (str_truthy username && str_truthy password = true →
     length servers = 5
     ∧ Forall (λ server,
                 dict_get "username" server = Some (JStr (default "" username))
                 ∧ dict_get "credential" server = Some (JStr (default "" password)))
              (drop 2 servers)).
Proof.
  intros servers. unfold servers, get_ice_config, ice_servers.
  destruct (str_truthy username && str_truthy password) eqn:Hcred;
    (split_and!; [done| |]); intros [=]; split; try done.
  - change (str_truthy None && str_truthy None) with false. cbv iota.
    by repeat constructor.
  - by repeat constructor.
Qed.

(** X22 at work: a username alone. *)
Lemma ice_servers_shape_witness :
  get_ice_config (Some "turn:example.org:80") (Some "alice") None
  = get_ice_config None None None.
Proof.
  destruct (ice_servers_shape (Some "turn:example.org:80") (Some "alice") None)
    as (_ & Hstun & _).
  destruct (Hstun eq_refl) as [Hsame _]. exact Hsame.
Defined.

(** X23: the TCP and TLS variants of the TURN server are made by replacing
    ":80" in [TURN_URL]; for a URL in which ":80" does not occur, the three
    TURN entries carry the same URL. *)
Theorem turn_urls_without_port_80 url username password :
  str_truthy username && str_truthy password = true →
  str_contains ":80" url = false →
  server_urls (drop 2 (ice_servers (Some url) username password))
  = [Some (JStr url); Some (JStr url); Some (JStr url)].
Proof.
  intros Hcred Hport. unfold ice_servers. rewrite Hcred.
  cbn [default from_option id app drop]. unfold server_urls, str_replace.
  by rewrite !replace_from_no_match.
Qed.

(** X23 at work: a TURN server on port 3478. *)
Lemma turn_urls_without_port_80_witness :
  server_urls (drop 2 (ice_servers (Some "turn:example.org:3478")
                         (Some "alice") (Some "secret")))
  = [Some (JStr "turn:example.org:3478"); Some (JStr "turn:example.org:3478");
     Some (JStr "turn:example.org:3478")].
Proof.
  apply (turn_urls_without_port_80 "turn:example.org:3478" (Some "alice")
           (Some "secret")); reflexivity.
Defined.

(** X24: for a [TURN_URL] that ends with ":80" and has no ":80" before, the
    three TURN entries are that URL, the same with "?transport=tcp"
    appended, and the same with port 443 instead of 80. *)
Theorem turn_urls_for_port_80 host username password :
  str_truthy username && str_truthy password = true →
  no_match_within ":80" host ":80" = true →
  server_urls (drop 2 (ice_servers (Some (host ++ ":80")) username password))
  = [Some (JStr (host ++ ":80")); Some (JStr (host ++ ":80?transport=tcp"));
     Some (JStr (host ++ ":443"))].
Proof.
  intros Hcred Hhost. unfold ice_servers. rewrite Hcred.
  cbn [default from_option id app drop]. unfold server_urls.
  by rewrite !str_replace_skips_head.
Qed.

(** X24 at work: the default of [TURN_URL]. *)
Lemma turn_urls_for_port_80_witness :
  server_urls (drop 2 (ice_servers None (Some "alice") (Some "secret")))
  = [Some (JStr "turn:global.relay.metered.ca:80");
     Some (JStr "turn:global.relay.metered.ca:80?transport=tcp");
     Some (JStr "turn:global.relay.metered.ca:443")].
Proof.
  apply (turn_urls_for_port_80 "turn:global.relay.metered.ca" (Some "alice")
           (Some "secret")); reflexivity.
Defined.

(** The replacement finds ":80" inside a longer port as well: with port
    8080 the variants are not addresses of the same host. *)
Example turn_urls_for_port_8080 :
  server_urls (drop 2 (ice_servers (Some "turn:example.org:8080")
                         (Some "alice") (Some "secret")))
  = [Some (JStr "turn:example.org:8080");
     Some (JStr "turn:example.org:80?transport=tcp80");
     Some (JStr "turn:example.org:44380")].
Proof. reflexivity. Qed.

(** ** The Telegram client *)

(** X25: a bot is configured exactly when it has a base URL.  A token
    given to the constructor wins when it is not empty, the environment
    is used otherwise; an empty token from either source leaves the bot
    unconfigured, and the base URL of a configured bot is the API prefix
    followed by its token. *)
Theorem bot_configured_iff_base_url token_arg env_token :
  let bot := TelegramBot_init token_arg env_token in
  (is_configured bot = true ↔ is_Some (base_url bot))
  ∧ (is_configured bot = true →
     ∃ token, token ≠ "" ∧ bot_token bot = Some token
              ∧ base_url bot = Some ("https://api.telegram.org/bot" ++ token))
  ∧ (str_truthy token_arg = true → bot_token bot = token_arg)
  ∧ (str_truthy token_arg = false → bot_token bot = env_token).
Proof.
  intros bot. unfold bot, TelegramBot_init, is_configured. cbn [bot_token base_url].
  set (token := if str_truthy token_arg then token_arg else env_token).
  split_and!.
  - destruct (str_truthy token); split; try done; try (by eauto);
      by intros [? [=]].
  - intros Hconfigured. rewrite Hconfigured.
    destruct token as [[|c t]|]; try discriminate. by exists (String c t).
  - unfold token. by intros ->.
  - unfold token. by intros ->.
Qed.

(** X25 at work: an empty argument and a token in the environment. *)
Lemma bot_configured_iff_base_url_witness :
  let bot := TelegramBot_init (Some "") (Some "123:abc") in
  is_configured bot = true
  ∧ ∃ token, token ≠ "" ∧ bot_token bot = Some token
             ∧ base_url bot = Some ("https://api.telegram.org/bot" ++ token).
Proof.
  intros bot.
  destruct (bot_configured_iff_base_url (Some "") (Some "123:abc"))
    as (_ & Hurl & _).
  split; [reflexivity | exact (Hurl eq_refl)].
Defined.

Lemma photos_of_response_positive data photos :
  photos_of_response data = Some photos →
  ∃ result,
    photos = JObj result
    ∧ py_gt_zero (default (JNum 0) (dict_get "total_count" result)) = Some true
    ∧ py_truthy photos = true.
Proof.
  unfold photos_of_response. destruct data as [| | | | |fields]; try done.
  destruct (py_truthy _); [|done].
  destruct (dict_get "result" fields) as [value|] eqn:Hresult;
    cbn [default from_option id]; [|done].
  destruct value as [| | | | |result]; try done.
  destruct (py_gt_zero _) as [[|]|] eqn:Hpositive; try done.
  intros [= <-]. exists result. split_and!; [done..|].
  destruct result; [done|]. reflexivity.
Qed.

Section TelegramFacts.
Variable http : HttpRequest → option json.
Variable py_str : json → string.

(** X26: a bot that is not configured never makes a request: the three
    methods return [None], [None] and [False] at once, and the photo
    endpoint answers with its failure message. *)
Theorem unconfigured_bot_makes_no_request bot user_id file_id text parse_mode :
  is_configured bot = false →
  get_user_profile_photos http bot user_id = ([], None)
  ∧ get_file_url http py_str bot file_id = ([], None)
  ∧ send_message http bot user_id text parse_mode = ([], JBool false)
  ∧ (get_user_info http py_str bot user_id).1 = []
  ∧ ∃ answer, (get_user_info http py_str bot user_id).2 = Some (JObj answer)
              ∧ dict_get "success" answer = Some (JBool false).
Proof.
  intros Hoff.
  unfold get_user_profile_photos, get_file_url, send_message, get_user_info.
  rewrite Hoff. split_and!; try done. by eexists.
Qed.


Lemma profile_photos_shape bot user_id photos :
  (get_user_profile_photos http bot user_id).2 = Some photos →
  ∃ result,
    photos = JObj result
    ∧ py_truthy photos = true
    ∧ py_gt_zero (default (JNum 0) (dict_get "total_count" result)) = Some true.
Proof.
  unfold get_user_profile_photos. destruct (is_configured bot); [|done].
  cbn [snd]. destruct (http _) as [data|]; [|done]. cbn. intros Hphotos.
  destruct (photos_of_response_positive data photos Hphotos)
    as (result & -> & ? & ?).
  by exists result.
Qed.

(** X28: whatever [get_user_profile_photos] returns other than [None] is
    an object whose "total_count" is greater than zero, so the test that
    [get_user_info] repeats on it can neither fail nor raise. *)
Theorem profile_photos_are_counted bot user_id photos :
  (get_user_profile_photos http bot user_id).2 = Some photos →
  is_configured bot = true
  ∧ ∃ result,
      photos = JObj result
      ∧ py_truthy photos = true
      ∧ py_gt_zero (default (JNum 0) (dict_get "total_count" result)) = Some true.
Proof.
  unfold get_user_profile_photos. destruct (is_configured bot); [|done].
  cbn [snd]. intros Hphotos. split; [done|].
  destruct (http _) as [data|]; [|done]. cbn in Hphotos.
  destruct (photos_of_response_positive data photos Hphotos)
    as (result & -> & ? & ?).
  by exists result.
Qed.

(** X29: the URL that [get_file_url] returns is the file prefix of the
    API, the token of the bot, a slash and the "file_path" of the answer:
    the link handed to the caller carries the bot token. *)
Theorem file_url_carries_token bot file_id url :
  (get_file_url http py_str bot file_id).2 = Some url →
  let request :=
    mkHttpRequest GET (py_format (base_url bot) ++ "/getFile")
      [("file_id", file_id)] in
  ∃ token fields result file_path,
    bot_token bot = Some token
    ∧ http request = Some (JObj fields)
    ∧ dict_get "result" fields = Some result
    ∧ py_getitem result "file_path" = Some file_path
    ∧ url = "https://api.telegram.org/file/bot" ++ token ++ "/" ++ py_str file_path.
Proof.
  intros Hurl request. unfold get_file_url, is_configured in Hurl.
  fold request in Hurl.
  destruct (bot_token bot) as [token|] eqn:Htoken; [|done].
  destruct (str_truthy (Some token)); [|done]. cbn [snd] in Hurl.
  destruct (http request) as [[| | | | |fields]|]; try done.
  cbn in Hurl. rewrite Htoken in Hurl.
  destruct (py_truthy _); [|done].
  destruct (dict_get "result" fields) as [result|] eqn:Hresult; [|done].
  cbn in Hurl.
  destruct (py_getitem result "file_path") as [file_path|] eqn:Hpath; [|done].
  cbn in Hurl. injection Hurl as <-. by exists token, fields, result, file_path.
Qed.

(** X30: the photo endpoint raises exactly when the bot is configured,
    Telegram reports at least one photo and the first photo has no last
    size with a "file_id" (an empty or malformed "photos" array); in every
    other case it answers, after at most two requests. *)
Theorem get_user_info_raises_iff bot user_id :
  ((get_user_info http py_str bot user_id).2 = None
   ↔ is_configured bot = true
     ∧ ∃ photos, (get_user_profile_photos http bot user_id).2 = Some photos
                 ∧ first_photo_file_id photos = None)
  ∧ (length (get_user_info http py_str bot user_id).1 ≤ 2)%nat.
Proof.
  unfold get_user_info.
  destruct (is_configured bot) eqn:Hon.
  2:{ split; [|cbn; lia]. split; [done|]. by intros [[=] _]. }
  pose proof (profile_photos_shape bot user_id) as Hshape.
  assert (length (get_user_profile_photos http bot user_id).1 = 1) as Hone.
  { unfold get_user_profile_photos. by rewrite Hon. }
  destruct (get_user_profile_photos http bot user_id) as [requests1 photos].
  cbn [fst snd] in *.
  destruct photos as [photos|].
  2:{ split; [|cbn; lia]. split; [done|]. by intros [_ (? & [=] & _)]. }
  destruct (Hshape photos eq_refl) as (result & -> & Htruthy & Hpositive).
  rewrite Htruthy, Hpositive.
  destruct (first_photo_file_id (JObj result)) as [file_id|] eqn:Hfile.
  - assert (length (get_file_url http py_str bot file_id).1 = 1) as Htwo.
    { unfold get_file_url. by rewrite Hon. }
    destruct (get_file_url http py_str bot file_id) as [requests2 photo_url].
    cbn [fst snd] in *. split.
    + split; [done|]. intros [_ (photos & [= <-] & Hnone)]. congruence.
    + rewrite length_app. lia.
  - cbn [fst snd]. split; [|lia]. split; [|done]. intros _. split; [done|].
    by exists (JObj result).
Qed.
End TelegramFacts.

(** X26 at work: no token anywhere. *)
Lemma unconfigured_bot_makes_no_request_witness :
  let bot := TelegramBot_init None None in
  is_configured bot = false
  ∧ send_message telegram_with_photo bot 5 "hi" "HTML" = ([], JBool false).
Proof.
  intros bot.
  destruct (unconfigured_bot_makes_no_request telegram_with_photo str_of_json bot 5
              (JStr "f") "hi" "HTML" eq_refl) as (_ & _ & Hsend & _).
  split; [reflexivity | exact Hsend].
Defined.


(** X28 at work: one photo reported. *)
Lemma profile_photos_are_counted_witness :
  let bot := TelegramBot_init (Some "T") None in
  ∃ photos,
    (get_user_profile_photos telegram_with_photo bot 5).2 = Some photos
    ∧ py_truthy photos = true.
Proof.
  intros bot. eexists. split; [reflexivity|].
  destruct (profile_photos_are_counted telegram_with_photo bot 5 _ eq_refl)
    as (_ & result & Hphotos & Htruthy & _).
  exact Htruthy.
Defined.

(** X29 at work: the link to the photo of a bot whose token is "T". *)
Lemma file_url_carries_token_witness :
  let bot := TelegramBot_init (Some "T") None in
  (get_file_url telegram_with_photo str_of_json bot (JStr "big")).2
  = Some "https://api.telegram.org/file/botT/photos/a.jpg"
  ∧ ∃ token path,
      bot_token bot = Some token
      ∧ "https://api.telegram.org/file/botT/photos/a.jpg"
        = "https://api.telegram.org/file/bot" ++ token ++ "/" ++ path.
Proof.
  intros bot.
  assert ((get_file_url telegram_with_photo str_of_json bot (JStr "big")).2
          = Some "https://api.telegram.org/file/botT/photos/a.jpg") as Hurl
    by reflexivity.
  split; [exact Hurl|].
  destruct (file_url_carries_token telegram_with_photo str_of_json bot (JStr "big")
              _ Hurl) as (token & fields & result & file_path & Htoken & _ & _ & _ & Heq).
  exists token, (str_of_json file_path). split; [exact Htoken | exact Heq].
Defined.

(** X30 at work: a photo is counted and the list of photos is empty. *)
Lemma get_user_info_raises_iff_witness :
  let bot := TelegramBot_init (Some "T") None in
  (get_user_info telegram_without_sizes str_of_json bot 5).2 = None.
Proof.
  intros bot.
  destruct (get_user_info_raises_iff telegram_without_sizes str_of_json bot 5)
    as [[_ Hraises] _].
  apply Hraises. split; [reflexivity|]. eexists. split; reflexivity.
Defined.

(** The photo endpoint when all goes well: two requests, and an answer
    whose link carries the token. *)
Example get_user_info_with_photo :
  get_user_info telegram_with_photo str_of_json (TelegramBot_init (Some "T") None) 5
  = ([mkHttpRequest GET "https://api.telegram.org/botT/getUserProfilePhotos"
        [("user_id", JNum 5); ("limit", JNum 1)];
      mkHttpRequest GET "https://api.telegram.org/botT/getFile"
        [("file_id", JStr "big")]],
     Some (JObj [("success", JBool true); ("user_id", JNum 5);
                 ("photo_url",
                  JStr "https://api.telegram.org/file/botT/photos/a.jpg");
                 ("has_photo", JBool true)])).
Proof. reflexivity. Qed.

(** * The server with the other handlers running during its awaits *)

(** The iterator follows the registry: as long as the dictionary it
    iterates is the value of [rooms[room_id]], its items are the items of
    the room, whatever the other handlers do. *)
Lemma track_op_follows_registry reg room_id it op :
  (it_attached it = true → rooms reg !! room_id = Some (it_items it)) →
  it_attached (track_op room_id it op) = true →
  rooms (apply_op reg op) !! room_id = Some (it_items (track_op room_id it op)).
Proof.
  intros Htracks. destruct op as [room_id' user_id ws user_info|room_id' user_id];
    cbn [apply_op track_op].
  - rewrite add_participant_rooms.
    destruct (it_attached it) eqn:Hattached; cbn [andb].
    + specialize (Htracks eq_refl). case_bool_decide as Hroom.
      * subst room_id'. intros _. cbn [it_items].
        unfold room_members. rewrite Htracks. apply lookup_insert_eq.
      * intros _. by rewrite lookup_insert_ne.
    + by rewrite Hattached.
  - destruct (it_attached it) eqn:Hattached; cbn [andb];
      [|by rewrite Hattached].
    specialize (Htracks eq_refl). unfold disconnect. cbn [rooms].
    case_bool_decide as Hroom; cbn [andb].
    + subst room_id'. rewrite Htracks.
      destruct (dict_mem user_id (it_items it)); [|done].
      cbn [it_attached it_items].
      destruct (dict_is_empty (dict_del user_id (it_items it))); [done|].
      intros _. apply lookup_insert_eq.
    + intros _. destruct (rooms reg !! room_id') as [members|]; [|done].
      destruct (dict_mem user_id members); [|done].
      destruct (dict_is_empty (dict_del user_id members)).
      * by rewrite lookup_delete_ne.
      * by rewrite lookup_insert_ne.
Qed.

Section InterleavedFacts.
Context {Net : Type}.
Variable schedule : Net → WebSocket → json → Net * list RegistryOp * bool.
Variable churned_next : Net → list string → dict WebSocket → option (option nat).
Implicit Types (w : World Net) (message : json).

Lemma try_send_transmit_of user_id ws message w :
  try_send (transmit_of schedule) user_id ws message w
  = (Some (schedule (network w) ws message).2,
     mkWorld (registry w) (schedule (network w) ws message).1.1
       (outbox w ++ [mkDelivery user_id ws message
                       (schedule (network w) ws message).2])%list).
Proof. reflexivity. Qed.

(** As long as the dictionary is the one the loop began with, the iterator
    yields its items in order and then stops. *)
Lemma iter_next_untouched net (visited rest : dict WebSocket) yielded :
  length yielded = length visited →
  iter_next churned_next net (mkDictIter (visited ++ rest) true false)
    (length (visited ++ rest)) yielded
  = match rest with
    | [] => IterStop
    | (user_id, ws) :: _ => IterYield user_id ws
    end.
Proof.
  intros Hlen. unfold iter_next. cbn [it_items it_churned].
  rewrite Nat.eqb_refl. cbn [negb]. rewrite Hlen.
  destruct rest as [|[user_id ws] rest].
  - rewrite lookup_ge_None_2; [done|]. rewrite app_nil_r. lia.
  - by rewrite list_lookup_middle.
Qed.

(** A join that adds a key to the dictionary while the loop is under way
    makes the next step of the iteration raise. *)
Lemma iter_next_grown net it size yielded :
  length (it_items it) ≠ size →
  iter_next churned_next net it size yielded = IterRaise.
Proof.
  intros Hsize. unfold iter_next.
  by destruct (Nat.eqb_spec (length (it_items it)) size).
Qed.

Section Quiet.
Hypothesis schedule_quiet : quiet schedule.

Lemma await_send_quiet user_id ws message w :
  await_send schedule user_id ws message w
  = (Some ((schedule (network w) ws message).2, []),
     mkWorld (registry w) (schedule (network w) ws message).1.1
       (outbox w ++ [mkDelivery user_id ws message
                       (schedule (network w) ws message).2])%list).
Proof.
  unfold await_send. pose proof (schedule_quiet (network w) ws message) as Hops.
  destruct (schedule (network w) ws message) as [[net' ops] ok].
  cbn [fst snd] in *. by subst ops.
Qed.

(** With nobody else writing the registry, the loop over the live
    dictionary is the loop over its items. *)
Lemma send_each_live_quiet room_id message exclude_user
    (visited rest : dict WebSocket) yielded remaining w :
  length yielded = length visited →
  (length rest ≤ remaining)%nat →
  send_each_live schedule churned_next room_id message exclude_user
    (length (visited ++ rest)) remaining
    (mkDictIter (visited ++ rest) true false) yielded w
  = send_each (transmit_of schedule) rest message exclude_user w.
Proof.
  revert visited yielded remaining w.
  induction rest as [|[user_id ws] rest IH];
    intros visited yielded remaining w Hlen Hrem.
  - destruct remaining; cbn [send_each_live send_each];
      by rewrite iter_next_untouched.
  - destruct remaining as [|remaining]; [cbn [length] in Hrem; lia|].
    cbn [send_each_live send_each]. rewrite iter_next_untouched by done.
    assert (length (yielded ++ [user_id]) = length (visited ++ [(user_id, ws)]))
      as Hlen' by (rewrite !length_app, Hlen; reflexivity).
    assert ((length rest ≤ remaining)%nat) as Hrem'
      by (cbn [length] in Hrem; lia).
    pose proof (IH (visited ++ [(user_id, ws)])%list (yielded ++ [user_id])%list
                  remaining) as IH'.
    rewrite <- app_assoc in IH'. cbn [app] in IH'.
    destruct (decide (exclude_user = Some user_id)) as [Hex|Hex].
    + by apply IH'.
    + unfold bind at 1. rewrite await_send_quiet. cbn [fst snd foldl].
      unfold bind. rewrite try_send_transmit_of. by rewrite IH'.
Qed.

Lemma broadcast_to_room_live_quiet room_id message exclude_user w :
  broadcast_to_room_live schedule churned_next room_id message exclude_user w
  = broadcast_to_room (transmit_of schedule) room_id message exclude_user w.
Proof.
  unfold broadcast_to_room_live, broadcast_to_room, bind, get_registry.
  destruct (rooms (registry w) !! room_id) as [members|]; [|done].
  pose proof (send_each_live_quiet room_id message exclude_user [] members []
                (length members) w eq_refl (le_n _)) as Hloop.
  cbn [app] in Hloop. by rewrite Hloop.
Qed.









End Quiet.

(** When the accept raises, [connect] raises before it has bound the
    channel or sent anything. *)
Lemma connect_live_refused accepts room_id user_id ws user_info w net' ops :
  accepts (network w) ws = (net', ops, false) →
  connect_live schedule churned_next accepts room_id user_id ws user_info w
  = (None, mkWorld (foldl apply_op (registry w) ops) net' (outbox w)).
Proof. intros Hrefused. unfold connect_live. by rewrite Hrefused. Qed.

(** A broadcast during which nobody else writes the registry is the
    broadcast run in one go: every member other than the excluded one is
    attempted, and those whose attempt failed are removed. *)
Lemma broadcast_attempts_all_when_quiet room_id message exclude_user w :
  quiet schedule →
  let result :=
    broadcast_to_room_live schedule churned_next room_id message exclude_user w in
  result.1 = Some tt
  ∧ ∃ attempts,
      outbox result.2 = (outbox w ++ attempts)%list
      ∧ to_user <$> attempts
        = filter (λ user_id, exclude_user ≠ Some user_id)
                 (dict_keys (room_members (registry w) room_id))
      ∧ Forall (λ a, payload a = message
                     ∧ (to_user a, to_ws a) ∈ room_members (registry w) room_id)
               attempts
      ∧ Forall (λ a, delivered a = false →
                     room_lookup (registry result.2) room_id (to_user a) = None
                     ∧ users (registry result.2) !! to_user a = None)
               attempts.
Proof.
  intros Hquiet result. unfold result.
  rewrite (broadcast_to_room_live_quiet Hquiet).
  pose proof (broadcast_uninterrupted (transmit_of schedule) room_id message
                exclude_user w) as Hrun.
  cbv zeta in Hrun. destruct Hrun as (Hreturns & attempts & ? & ? & ? & ? & _).
  split; [done|]. by exists attempts.
Qed.





End InterleavedFacts.

(** ** The interleaved server at work *)


(** C2: a broadcast in "r1", where "A" (whose peer is gone) and "B" are
    bound, during which "C" joins "r1" while the send to "A" is awaited:
    the iteration over the items of the room raises, so the call does not
    return normally, "B" is never attempted, and "A", whose send failed, is
    still bound and recorded.  The same call with nobody joining attempts
    "A" and "B" and removes "A". *)
Theorem broadcast_aborts_on_concurrent_join
    (churned_next : dead_channels → list string → dict WebSocket
                    → option (option nat)) :
  let message := user_left_msg "x" in
  let interrupted :=
    broadcast_to_room_live join_during_send churned_next "r1" message None
      world_AB_A_gone in
  let uninterrupted :=
    broadcast_to_room_live calm_schedule churned_next "r1" message None
      world_AB_A_gone in
  rooms (registry world_AB_A_gone) !! "r1" = Some [("A", 1); ("B", 2)]
  ∧ interrupted.1 = None
  ∧ outbox interrupted.2 = [mkDelivery "A" 1 message false]
  ∧ rooms (registry interrupted.2) !! "r1" = Some [("A", 1); ("B", 2); ("C", 3)]
  ∧ users (registry interrupted.2) !! "A" = Some [("room_id", JStr "r1")]
  ∧ uninterrupted.1 = Some tt
  ∧ outbox uninterrupted.2
    = [mkDelivery "A" 1 message false; mkDelivery "B" 2 message true]
  ∧ rooms (registry uninterrupted.2) !! "r1" = Some [("B", 2)]
  ∧ users (registry uninterrupted.2) !! "A" = None.
Proof. intros message interrupted uninterrupted. split_and!; reflexivity. Qed.

(** The abort reaches the handler: "B" speaks in the room of "A" and "B",
    "C" joins while the send to "A" is awaited, and the handler of "B",
    whose own channel is sound, closes and unbinds "B"; its [finally]
    block then sends [user_left] to "A" and "C". *)
Example speaking_during_a_join_closes_the_speaker :
  let fields := [("type", JStr "speaking"); ("is_speaking", JBool true)] in
  let w := mkWorld (registry world_AB_A_gone) [] [] in
  let result :=
    handler_step_live join_during_send strict_iterator "r1" "B" 2 Active
      (Received (JObj fields)) w in
  result.1 = Closed
  ∧ rooms (registry result.2) !! "r1" = Some [("A", 1); ("C", 3)]
  ∧ to_user <$> outbox result.2 = ["A"; "A"; "C"].
Proof. intros fields w result. split_and!; reflexivity. Qed.





(** [connect] when the accept raises: "C" is not bound. *)
Example connect_refused_binds_nothing :
  let refuse (net : dead_channels) (ws : WebSocket)
    : dead_channels * list RegistryOp * bool := (net, [], false) in
  connect_live calm_schedule strict_iterator refuse "r1" "C" 3 (JObj []) world_AB
  = (None, world_AB).
Proof. reflexivity. Qed.
